(** * Corporal theremin: hand-to-parameter mapping and audio engine

    A shallow embedding of [backend/theremin_backend.py] and of the
    wave-type endpoint of [backend/main.py].

    Numbers.  Python [int]s are [Z].  Python [float]s (and the numpy
    [float64] arrays of [generate_wave]) are modelled by the real numbers
    [R]: every arithmetic operation is exact, and infinities, NaN and the
    final rounding of [astype(np.float32)] are outside the model.
    Comparisons on [R] are the decidable ones of the standard library
    ([Rlt_dec]), [floor] is [Int_part], [np.sin] is [sin].  Where the
    rounding of binary64 separates the code from the real formula (the
    frequency at the bottom edge of the frame can pass [freq_max] by one
    unit in the last place), the bound is stated against the value the
    code's own formula takes there, and [Doubles] evaluates the lines in
    binary64.

    Exceptions.  A Python call either returns or raises; fallible pure
    functions return a [result], and the methods of [CorporalTheremin]
    that mutate the object before raising run in the monad [M], which
    keeps the object state when an exception escapes. *)

From Stdlib Require Import Reals Lra Lia ZArith List String Bool.
From Stdlib Require Floats Uint63.
Import ListNotations.

Local Open Scope R_scope.
Local Open Scope string_scope.

(** ** Exceptions and results *)

Inductive exn : Type :=
| ZeroDivisionError
| ValueError
| AttributeError
| ExternalError (who : string).

Inductive result (A : Type) : Type :=
| Ok (a : A)
| Raise (e : exn).
Arguments Ok {A} a.
Arguments Raise {A} e.

Definition rbind {A B : Type} (r : result A) (k : A -> result B) : result B :=
  match r with
  | Ok a => k a
  | Raise e => Raise e
  end.

Notation "x <- r ;; k" := (rbind r (fun x => k))
  (at level 61, r at next level, right associativity).

(** ** Python and numpy primitives on numbers *)

(** [max(a, b)]: the first argument unless the second is strictly larger. *)
Definition py_max (a b : R) : R := if Rlt_dec a b then b else a.

(** [min(a, b)]: the first argument unless the second is strictly smaller. *)
Definition py_min (a b : R) : R := if Rlt_dec b a then b else a.

(** [a / b] on two [int]s: true division, [ZeroDivisionError] when [b == 0]. *)
Definition int_truediv (a b : Z) : result R :=
  if (b =? 0)%Z then Raise ZeroDivisionError else Ok (IZR a / IZR b).

(** [np.floor]. *)
Definition floor (x : R) : R := IZR (Int_part x).

(** [x % m] on floats with [m <> 0]: the remainder takes the sign of [m]. *)
Definition py_fmod (x m : R) : R := x - m * floor (x / m).

(** [np.sign]. *)
Definition np_sign (x : R) : R :=
  if Rlt_dec x 0 then -1 else if Rlt_dec 0 x then 1 else 0.

(** [np.clip(a, a_min, a_max)], that is [minimum(a_max, maximum(a, a_min))]. *)
Definition np_clip (a a_min a_max : R) : R := Rmin a_max (Rmax a a_min).

(** [np.arange(n)] for an [int] [n]: [0, 1, ..., n-1], empty when [n <= 0]. *)
Definition np_arange (n : Z) : list Z := map Z.of_nat (seq 0 (Z.to_nat n)).

(** [int(x)] on a float: truncation towards zero. *)
Definition py_int (x : R) : Z :=
  if Rlt_dec x 0 then (- Int_part (- x))%Z else Int_part x.

(** [x in [...]] on strings. *)
Definition str_in (x : string) (l : list string) : bool :=
  existsb (String.eqb x) l.

(** ** Configuration *)

Module ThereminConfig.

Record t : Type := mk {
  camera_index : Z;
  frame_width : Z;
  frame_height : Z;
  sample_rate : Z;
  frames_per_buffer : Z;
  frequency_range : R * R;
  volume_range : R * R;
  wave_type : string;
  smooth_factor : R;
  left_hand_controls : string;
  right_hand_controls : string
}.

(** The dataclass defaults. *)
Definition default : t := {|
  camera_index := 0;
  frame_width := 640;
  frame_height := 480;
  sample_rate := 44100;
  frames_per_buffer := 256;
  frequency_range := (200, 1000);
  volume_range := (0, 1);
  wave_type := "sine";
  smooth_factor := 1 / 10;
  left_hand_controls := "volume";
  right_hand_controls := "frequency"
|}.

End ThereminConfig.

(** A hand position is the pixel pair [(x, y)] of the wrist; [None] when the
    hand was not detected in the frame.  A pair is always truthy, so the
    Python test [if left_hand] is the test for [Some]. *)
Definition hand_pos : Type := (Z * Z)%type.

(** ** The audio engine *)

Module AudioEngine.

(** The PortAudio stream owned by the engine. *)
Record stream_t : Type := mk_stream {
  active : bool;
  closed : bool
}.

Record t : Type := mk {
  config : ThereminConfig.t;
  audio_terminated : bool;
  stream : option stream_t;
  is_playing : bool;
  current_phase : R;
  frequency : R;
  volume : R;
  wave_type : string
}.

Definition set_current_phase (e : t) (p : R) : t :=
  mk (config e) (audio_terminated e) (stream e) (is_playing e) p
     (frequency e) (volume e) (wave_type e).

Definition set_is_playing (e : t) (b : bool) : t :=
  mk (config e) (audio_terminated e) (stream e) b (current_phase e)
     (frequency e) (volume e) (wave_type e).

Definition set_stream (e : t) (s : option stream_t) : t :=
  mk (config e) (audio_terminated e) s (is_playing e) (current_phase e)
     (frequency e) (volume e) (wave_type e).

Definition set_audio_terminated (e : t) (b : bool) : t :=
  mk (config e) b (stream e) (is_playing e) (current_phase e)
     (frequency e) (volume e) (wave_type e).

(** The state [__init__] leaves behind once [setup_audio] has opened the
    stream. *)
Definition init (cfg : ThereminConfig.t) : t := {|
  config := cfg;
  audio_terminated := false;
  stream := Some (mk_stream false false);
  is_playing := false;
  current_phase := 0;
  frequency := 440;
  volume := 0;
  wave_type := ThereminConfig.wave_type cfg
|}.

(** The waveform value at global time [t_global], by the [if]/[elif]
    chain on [self.wave_type]; an unknown kind falls back to the sine. *)
Definition wave_at (wt : string) (freq t_global : R) : R :=
  if wt =? "sine" then sin (2 * PI * freq * t_global)
  else if wt =? "square" then np_sign (sin (2 * PI * freq * t_global))
  else if wt =? "sawtooth" then
    2 * (t_global * freq - floor (1 / 2 + t_global * freq))
  else if wt =? "triangle" then
    2 * Rabs (2 * (t_global * freq - floor (t_global * freq + 1 / 2))) - 1
  else sin (2 * PI * freq * t_global).

(** One output sample: the waveform at [i / sample_rate + current_phase],
    scaled by the volume and clipped to [-0.9, 0.9]. *)
Definition sample_at (e : t) (i : Z) : R :=
  let t_global :=
    IZR i / IZR (ThereminConfig.sample_rate (config e)) + current_phase e in
  np_clip (wave_at (wave_type e) (frequency e) t_global * volume e)
          (- (9 / 10)) (9 / 10).

(** [generate_wave(num_samples)]: the buffer and the engine afterwards.
    The array divisions by [sample_rate] are numpy's and do not raise;
    the scalar [num_samples / sample_rate] of the phase update raises
    [ZeroDivisionError], before any attribute is written. *)
Definition generate_wave (e : t) (num_samples : Z) : result (list R * t) :=
  let wave := map (sample_at e) (np_arange num_samples) in
  dt <- int_truediv num_samples (ThereminConfig.sample_rate (config e)) ;;
  let phase := current_phase e + dt in
  let phase :=
    py_fmod phase (if Rlt_dec 0 (frequency e) then 1 / frequency e else 1) in
  Ok (wave, set_current_phase e phase).

(** [np.zeros(frame_count)]: [ValueError] on a negative dimension. *)
Definition np_zeros (n : Z) : result (list R) :=
  if (n <? 0)%Z then Raise ValueError else Ok (repeat 0 (Z.to_nat n)).

(** [audio_callback]: the sample buffer handed to PortAudio (before
    [tobytes]) and the engine afterwards.  The [status] argument is only
    logged. *)
Definition audio_callback (e : t) (frame_count : Z) : result (list R * t) :=
  if negb (is_playing e) || (if Rlt_dec (volume e) (1 / 100) then true else false)
  then data <- np_zeros frame_count ;; Ok (data, e)
  else generate_wave e frame_count.

Definition update_parameters (e : t) (frequency volume : R) : t :=
  mk (config e) (audio_terminated e) (stream e) (is_playing e)
     (current_phase e) frequency volume (wave_type e).

Definition set_wave_type (e : t) (wave_type : string) : t :=
  if str_in wave_type ["sine"; "square"; "sawtooth"; "triangle"]
  then mk (config e) (audio_terminated e) (stream e) (is_playing e)
          (current_phase e) (frequency e) (volume e) wave_type
  else e.

Definition start (e : t) : t :=
  match stream e with
  | Some s =>
      if negb (is_playing e)
      then set_is_playing (set_stream e (Some (mk_stream true (closed s)))) true
      else e
  | None => e
  end.

Definition stop (e : t) : t :=
  match stream e with
  | Some s =>
      if is_playing e
      then set_is_playing (set_stream e (Some (mk_stream false (closed s)))) false
      else e
  | None => e
  end.

Definition cleanup (e : t) : t :=
  let e := stop e in
  let e :=
    match stream e with
    | Some s => set_stream e (Some (mk_stream (active s) true))
    | None => e
    end in
  set_audio_terminated e true.

End AudioEngine.

(** ** The hand tracker and the camera *)

Module HandTracker.

Record t : Type := mk {
  config : ThereminConfig.t;
  hands_closed : bool;
  left_hand_pos : option hand_pos;
  right_hand_pos : option hand_pos
}.

Definition init (cfg : ThereminConfig.t) : t :=
  mk cfg false None None.

Definition get_hand_positions (h : t) : option hand_pos * option hand_pos :=
  (left_hand_pos h, right_hand_pos h).

Definition cleanup (h : t) : t :=
  mk (config h) true (left_hand_pos h) (right_hand_pos h).

(** What MediaPipe returns for a frame: [multi_hand_landmarks] is [None]
    when no hand is seen, otherwise one wrist landmark (normalised [x] and
    [y]) per hand; [multi_handedness] gives the label of each hand. *)
Record hands_result : Type := mk_result {
  multi_hand_landmarks : option (list (R * R));
  multi_handedness : list string
}.

Definition set_positions (h : t) (l r : option hand_pos) : t :=
  mk (config h) (hands_closed h) l r.

(** The body of the [for] loop of [process_frame] for one hand. *)
Definition track_hand (h : t) (d : (R * R) * string) : t :=
  let '(wrist, hand_label) := d in
  let x := py_int (fst wrist * IZR (ThereminConfig.frame_width (config h))) in
  let y := py_int (snd wrist * IZR (ThereminConfig.frame_height (config h))) in
  if hand_label =? "Left"
  then set_positions h (Some (x, y)) (right_hand_pos h)
  else set_positions h (left_hand_pos h) (Some (x, y)).

(** [process_frame]: the tracker after the frame.  The colour conversion
    and the drawing act on the image only. *)
Definition process_frame (h : t) (results : hands_result) : t :=
  let h := set_positions h None None in
  match multi_hand_landmarks results with
  | Some (lm :: lms) =>
      fold_left track_hand (combine (lm :: lms) (multi_handedness results)) h
  | _ => h
  end.

End HandTracker.

Module Camera.

(** A [cv2.VideoCapture] object: whether the device is open, and whether
    [release()] has been called on it. *)
Record t : Type := mk {
  isOpened : bool;
  released : bool
}.

Definition release (c : t) : t := mk false true.

End Camera.

(** What the external libraries do during [setup]: each constructor either
    returns or raises. *)
Record setup_env : Type := mk_env {
  video_capture : result bool;   (* cv2.VideoCapture(index): isOpened() of the object *)
  mp_hands : option exn;         (* mp.solutions.hands.Hands(...) raising *)
  pyaudio_new : option exn;      (* pyaudio.PyAudio() raising *)
  pyaudio_open : option exn      (* PyAudio.open(...) raising *)
}.

(** ** The theremin object *)

Module CorporalTheremin.

Record thread_t : Type := mk_thread { is_alive : bool }.

Record t : Type := mk {
  config : ThereminConfig.t;
  audio_engine : option AudioEngine.t;
  hand_tracker : option HandTracker.t;
  camera : option Camera.t;
  is_running : bool;
  processing_thread : option thread_t
}.

(** Methods that mutate [self] and may raise: the object state survives
    the exception. *)
Definition M (A : Type) : Type := t -> t * result A.

Definition ret {A : Type} (a : A) : M A := fun s => (s, Ok a).

Definition raise {A : Type} (e : exn) : M A := fun s => (s, Raise e).

Definition bind {A B : Type} (m : M A) (k : A -> M B) : M B :=
  fun s =>
    match m s with
    | (s', Ok a) => k a s'
    | (s', Raise e) => (s', Raise e)
    end.

(** [try: body except Exception as e: handler(e)]. *)
Definition try_except {A : Type} (body : M A) (handler : exn -> M A) : M A :=
  fun s =>
    match body s with
    | (s', Ok a) => (s', Ok a)
    | (s', Raise e) => handler e s'
    end.

Definition get : M t := fun s => (s, Ok s).

Definition modify (f : t -> t) : M unit := fun s => (f s, Ok tt).

Declare Scope theremin_scope.
Delimit Scope theremin_scope with M.
Notation "x <~ m ;; k" := (bind m (fun x => k))
  (at level 61, m at next level, right associativity) : theremin_scope.
Notation "m ;;; k" := (bind m (fun _ => k))
  (at level 61, right associativity) : theremin_scope.
Local Open Scope theremin_scope.

Definition set_audio_engine (a : option AudioEngine.t) (s : t) : t :=
  mk (config s) a (hand_tracker s) (camera s) (is_running s)
     (processing_thread s).

Definition set_hand_tracker (h : option HandTracker.t) (s : t) : t :=
  mk (config s) (audio_engine s) h (camera s) (is_running s)
     (processing_thread s).

Definition set_camera (c : option Camera.t) (s : t) : t :=
  mk (config s) (audio_engine s) (hand_tracker s) c (is_running s)
     (processing_thread s).

Definition set_is_running (b : bool) (s : t) : t :=
  mk (config s) (audio_engine s) (hand_tracker s) (camera s) b
     (processing_thread s).

(** [stop]: [self.audio_engine.stop()] is called without a test for
    [None], so it raises [AttributeError] on an object whose engine was
    never created.  The bounded [join] of the processing thread changes
    nothing in the modelled state. *)
Definition stop : M unit :=
  modify (set_is_running false) ;;;
  s <~ get ;;
  match audio_engine s with
  | None => raise AttributeError
  | Some e => modify (set_audio_engine (Some (AudioEngine.stop e)))
  end.

Definition cleanup : M unit :=
  stop ;;;
  s <~ get ;;
  match audio_engine s with
  | Some e => modify (set_audio_engine (Some (AudioEngine.cleanup e)))
  | None => ret tt
  end ;;;
  s <~ get ;;
  match hand_tracker s with
  | Some h => modify (set_hand_tracker (Some (HandTracker.cleanup h)))
  | None => ret tt
  end ;;;
  s <~ get ;;
  match camera s with
  | Some c =>
      if Camera.isOpened c
      then modify (set_camera (Some (Camera.release c)))
      else ret tt
  | None => ret tt
  end.

(** The three acquisitions of [setup], in order. *)
Definition open_camera (env : setup_env) : M unit :=
  match video_capture env with
  | Raise e => raise e
  | Ok opened => modify (set_camera (Some (Camera.mk opened false)))
  end.

Definition new_hand_tracker (env : setup_env) : M unit :=
  match mp_hands env with
  | Some e => raise e
  | None =>
      s <~ get ;;
      modify (set_hand_tracker (Some (HandTracker.init (config s))))
  end.

Definition new_audio_engine (env : setup_env) : M unit :=
  match pyaudio_new env with
  | Some e => raise e
  | None =>
      match pyaudio_open env with
      | Some e => raise e
      | None =>
          s <~ get ;;
          modify (set_audio_engine (Some (AudioEngine.init (config s))))
      end
  end.

Definition setup (env : setup_env) : M unit :=
  try_except
    (open_camera env ;;;
     new_hand_tracker env ;;;
     new_audio_engine env)
    (fun e => cleanup ;;; raise e).

(** [__init__]: the fresh object, then [setup]. *)
Definition fresh (cfg : ThereminConfig.t) : t :=
  mk cfg None None None false None.

Definition new (cfg : ThereminConfig.t) (env : setup_env) : t * result unit :=
  setup env (fresh cfg).

Definition map_hand_to_parameters (self : t)
    (left_hand right_hand : option hand_pos) : result (R * R) :=
  let frequency := 440 in
  let volume := 0 in
  fv <-
    match left_hand with
    | Some lh =>
        if ThereminConfig.left_hand_controls (config self) =? "volume" then
          normalized_y <-
            int_truediv (snd lh) (ThereminConfig.frame_height (config self)) ;;
          let '(vol_min, vol_max) := ThereminConfig.volume_range (config self) in
          let volume := vol_max - (vol_max - vol_min) * normalized_y in
          let volume := py_max vol_min (py_min vol_max volume) in
          Ok (frequency, volume)
        else if ThereminConfig.left_hand_controls (config self) =? "frequency" then
          normalized_y <-
            int_truediv (snd lh) (ThereminConfig.frame_height (config self)) ;;
          let '(freq_min, freq_max) :=
            ThereminConfig.frequency_range (config self) in
          let frequency := freq_min + (freq_max - freq_min) * normalized_y in
          Ok (frequency, volume)
        else Ok (frequency, volume)
    | None => Ok (frequency, volume)
    end ;;
  let '(frequency, volume) := fv in
  fv <-
    match right_hand with
    | Some rh =>
        if ThereminConfig.right_hand_controls (config self) =? "frequency" then
          normalized_y <-
            int_truediv (snd rh) (ThereminConfig.frame_height (config self)) ;;
          let '(freq_min, freq_max) :=
            ThereminConfig.frequency_range (config self) in
          let frequency := freq_min + (freq_max - freq_min) * normalized_y in
          Ok (frequency, volume)
        else if ThereminConfig.right_hand_controls (config self) =? "volume" then
          normalized_y <-
            int_truediv (snd rh) (ThereminConfig.frame_height (config self)) ;;
          let '(vol_min, vol_max) := ThereminConfig.volume_range (config self) in
          let volume := vol_max - (vol_max - vol_min) * normalized_y in
          let volume := py_max vol_min (py_min vol_max volume) in
          Ok (frequency, volume)
        else Ok (frequency, volume)
    | None => Ok (frequency, volume)
    end ;;
  let '(frequency, volume) := fv in
  let volume :=
    match left_hand, right_hand with
    | None, None => 0
    | _, _ => volume
    end in
  Ok (frequency, volume).

(** The mapping step of [processing_loop]: map the two hand positions
    and write the result into the audio engine. *)
Definition mapping_step (left_hand right_hand : option hand_pos) : M unit :=
  s <~ get ;;
  match map_hand_to_parameters s left_hand right_hand with
  | Raise e => raise e
  | Ok (frequency, volume) =>
      match audio_engine s with
      | None => raise AttributeError
      | Some e =>
          modify (set_audio_engine
                    (Some (AudioEngine.update_parameters e frequency volume)))
      end
  end.

Definition set_wave_type (wave_type : string) : M unit :=
  s <~ get ;;
  match audio_engine s with
  | None => raise AttributeError
  | Some e =>
      modify (set_audio_engine (Some (AudioEngine.set_wave_type e wave_type)))
  end.

Definition set_config (c : ThereminConfig.t) (s : t) : t :=
  mk c (audio_engine s) (hand_tracker s) (camera s) (is_running s)
     (processing_thread s).

Definition set_processing_thread (th : option thread_t) (s : t) : t :=
  mk (config s) (audio_engine s) (hand_tracker s) (camera s) (is_running s) th.

(** [start]: the run flag is raised before the engine is touched; the
    processing thread is created last.  This is the state the call itself
    leaves: the thread it creates runs [processing_loop] concurrently, and
    the passes of that loop, which rewrite the hand positions and the
    frequency and volume of the engine, are modelled apart by
    [processing_iteration] and [processing_loop] below. *)
Definition start : M unit :=
  s <~ get ;;
  if is_running s then ret tt
  else
    modify (set_is_running true) ;;;
    s <~ get ;;
    match audio_engine s with
    | None => raise AttributeError
    | Some e => modify (set_audio_engine (Some (AudioEngine.start e)))
    end ;;;
    modify (set_processing_thread (Some (mk_thread true))).

Definition update_config (new_config : ThereminConfig.t) : M unit :=
  modify (set_config new_config).

(** The dictionary of [get_status]. *)
Record status : Type := mk_status {
  st_is_running : bool;
  st_frequency : R;
  st_volume : R;
  st_wave_type : string;
  st_left_hand_controls : string;
  st_right_hand_controls : string
}.

Definition get_status (s : t) : result status :=
  match audio_engine s with
  | None => Raise AttributeError
  | Some e =>
      Ok (mk_status (is_running s) (AudioEngine.frequency e)
            (AudioEngine.volume e) (AudioEngine.wave_type e)
            (ThereminConfig.left_hand_controls (config s))
            (ThereminConfig.right_hand_controls (config s)))
  end.

(** What [camera.read()] and the hand detection give for one pass of
    [processing_loop]. *)
Inductive camera_read : Type :=
| ReadFailed
| ReadFrame (results : HandTracker.hands_result).

(** The [try] body of one pass, on an object without UI callbacks (both are
    [None] unless the API installs them): [false] for the [continue] after
    a failed read, [true] when the pass ran to its end. *)
Definition iteration_body (rd : camera_read) : M bool :=
  s <~ get ;;
  match camera s with
  | None => raise AttributeError
  | Some _ =>
      match rd with
      | ReadFailed => ret false
      | ReadFrame results =>
          match hand_tracker s with
          | None => raise AttributeError
          | Some h =>
              let h' := HandTracker.process_frame h results in
              modify (set_hand_tracker (Some h')) ;;;
              let '(left_hand, right_hand) :=
                HandTracker.get_hand_positions h' in
              mapping_step left_hand right_hand ;;;
              ret true
          end
      end
  end.

Inductive loop_signal : Type := Continue | Break.

(** One pass of the [while]: any exception is logged and ends the loop. *)
Definition processing_iteration (rd : camera_read) (s : t) : t * loop_signal :=
  match iteration_body rd s with
  | (s', Ok _) => (s', Continue)
  | (s', Raise _) => (s', Break)
  end.

(** [processing_loop] over the reads the camera delivers, for as long as
    the run flag stays up. *)
Fixpoint processing_loop (reads : list camera_read) (s : t) : t :=
  match reads with
  | [] => s
  | rd :: rest =>
      if is_running s then
        match processing_iteration rd s with
        | (s', Continue) => processing_loop rest s'
        | (s', Break) => s'
        end
      else s
  end.

End CorporalTheremin.

(** ** The wave-type endpoint of the HTTP API *)

Module ThereminAPI.

Record t : Type := mk {
  theremin : option CorporalTheremin.t;
  current_frame : option string
}.

Record response : Type := mk_response {
  success : bool;
  message : string
}.

(** [ThereminAPI.update_wave_type]. *)
Definition update_wave_type (api : t) (wave_type : string) : t * result bool :=
  match theremin api with
  | Some th =>
      match CorporalTheremin.set_wave_type wave_type th with
      | (th', Ok _) => (mk (Some th') (current_frame api), Ok true)
      | (th', Raise e) => (mk (Some th') (current_frame api), Raise e)
      end
  | None => (api, Ok false)
  end.

(** The route [POST /api/wave_type]; [body] is the value of the key
    ['wave_type'] of the JSON request, [None] when the key is absent. *)
Definition update_wave_type_route (api : t) (body : option string)
  : t * result response :=
  let wave_type := match body with Some w => w | None => "sine" end in
  if negb (str_in wave_type ["sine"; "square"; "sawtooth"; "triangle"])
  then (api, Ok (mk_response false "Tipo de onda no válido"))
  else
    match update_wave_type api wave_type with
    | (api', Ok ok) =>
        (api', Ok (mk_response ok ("Onda cambiada a " ++ wave_type)))
    | (api', Raise e) => (api', Raise e)
    end.

(** [__init__] with [setup_theremin]: a failed construction is printed and
    leaves [theremin] at [None]. *)
Definition new (env : setup_env) : t :=
  match CorporalTheremin.new ThereminConfig.default env with
  | (th, Ok _) => mk (Some th) None
  | (_, Raise _) => mk None None
  end.

Definition start (api : t) : t * result bool :=
  match theremin api with
  | Some th =>
      match CorporalTheremin.start th with
      | (th', Ok _) => (mk (Some th') (current_frame api), Ok true)
      | (th', Raise e) => (mk (Some th') (current_frame api), Raise e)
      end
  | None => (api, Ok false)
  end.

Definition stop (api : t) : t * result bool :=
  match theremin api with
  | Some th =>
      match CorporalTheremin.stop th with
      | (th', Ok _) => (mk (Some th') (current_frame api), Ok true)
      | (th', Raise e) => (mk (Some th') (current_frame api), Raise e)
      end
  | None => (api, Ok false)
  end.

(** The routes [POST /api/start] and [POST /api/stop]. *)
Definition start_route (api : t) : t * result response :=
  match start api with
  | (api', Ok ok) =>
      (api', Ok (mk_response ok
                   (if ok then "Theremin iniciado" else "Error al iniciar")))
  | (api', Raise e) => (api', Raise e)
  end.

Definition stop_route (api : t) : t * result response :=
  match stop api with
  | (api', Ok ok) =>
      (api', Ok (mk_response ok
                   (if ok then "Theremin detenido" else "Error al detener")))
  | (api', Raise e) => (api', Raise e)
  end.

End ThereminAPI.

(** * Specification-level vocabulary *)

(** [x] lies within the configured range [(lo, hi)]. *)
Definition in_range (x : R) (rg : R * R) : Prop := fst rg <= x <= snd rg.

(** The two interpolations of the mapping, written as the specification
    words them: the hand height normalised by the frame height, then a
    linear interpolation, inverted for the volume. *)
Definition normalized (cfg : ThereminConfig.t) (y : Z) : R :=
  IZR y / IZR (ThereminConfig.frame_height cfg).

Definition lerp_frequency (cfg : ThereminConfig.t) (y : Z) : R :=
  let '(freq_min, freq_max) := ThereminConfig.frequency_range cfg in
  freq_min + (freq_max - freq_min) * normalized cfg y.

(** The value the frequency interpolation takes at the bottom edge of the
    frame, [y = frame_height]: the largest frequency a hand inside the
    frame can produce.  It is [freq_max] up to the rounding of
    [freq_min + (freq_max - freq_min) * 1.0]. *)
Definition frequency_ceiling (cfg : ThereminConfig.t) : R :=
  lerp_frequency cfg (ThereminConfig.frame_height cfg).

Definition lerp_volume (cfg : ThereminConfig.t) (y : Z) : R :=
  let '(vol_min, vol_max) := ThereminConfig.volume_range cfg in
  vol_max - (vol_max - vol_min) * normalized cfg y.

(** The clamp [max(vol_min, min(vol_max, v))] of the volume branches. *)
Definition clamp_volume (cfg : ThereminConfig.t) (v : R) : R :=
  let '(vol_min, vol_max) := ThereminConfig.volume_range cfg in
  py_max vol_min (py_min vol_max v).

(** Which present hand, if any, decides each parameter.  The right hand is
    examined after the left one, so it wins when both are assigned to the
    same parameter. *)
Definition frequency_hand (cfg : ThereminConfig.t)
    (left_hand right_hand : option hand_pos) : option hand_pos :=
  match right_hand with
  | Some rh =>
      if ThereminConfig.right_hand_controls cfg =? "frequency" then Some rh
      else
        match left_hand with
        | Some lh =>
            if ThereminConfig.left_hand_controls cfg =? "frequency"
            then Some lh else None
        | None => None
        end
  | None =>
      match left_hand with
      | Some lh =>
          if ThereminConfig.left_hand_controls cfg =? "frequency"
          then Some lh else None
      | None => None
      end
  end.

Definition volume_hand (cfg : ThereminConfig.t)
    (left_hand right_hand : option hand_pos) : option hand_pos :=
  match right_hand with
  | Some rh =>
      if ThereminConfig.right_hand_controls cfg =? "volume" then Some rh
      else
        match left_hand with
        | Some lh =>
            if ThereminConfig.left_hand_controls cfg =? "volume"
            then Some lh else None
        | None => None
        end
  | None =>
      match left_hand with
      | Some lh =>
          if ThereminConfig.left_hand_controls cfg =? "volume"
          then Some lh else None
      | None => None
      end
  end.

(** The frequency and the volume the mapping returns, in terms of the
    deciding hands: 440 Hz and silence are the fallbacks. *)
Definition mapped_frequency (cfg : ThereminConfig.t)
    (left_hand right_hand : option hand_pos) : R :=
  match frequency_hand cfg left_hand right_hand with
  | Some (_, y) => lerp_frequency cfg y
  | None => 440
  end.

Definition mapped_volume (cfg : ThereminConfig.t)
    (left_hand right_hand : option hand_pos) : R :=
  match volume_hand cfg left_hand right_hand with
  | Some (_, y) => clamp_volume cfg (lerp_volume cfg y)
  | None => 0
  end.

(** The four waveform kinds of the specification and their shapes as
    functions of the phase [x = frequency * t_global], in cycles. *)
Inductive wave_kind : Type := Sine | Square | Sawtooth | Triangle.

Definition kind_name (k : wave_kind) : string :=
  match k with
  | Sine => "sine"
  | Square => "square"
  | Sawtooth => "sawtooth"
  | Triangle => "triangle"
  end.

Definition wave_shape (k : wave_kind) (freq t_global : R) : R :=
  match k with
  | Sine => sin (2 * PI * freq * t_global)
  | Square => np_sign (sin (2 * PI * freq * t_global))
  | Sawtooth => 2 * (t_global * freq - floor (1 / 2 + t_global * freq))
  | Triangle =>
      2 * Rabs (2 * (t_global * freq - floor (t_global * freq + 1 / 2))) - 1
  end.

(** * Concrete configurations and states *)

(** The theremin built on the default configuration, fully set up. *)
Definition default_theremin : CorporalTheremin.t :=
  CorporalTheremin.mk ThereminConfig.default
    (Some (AudioEngine.init ThereminConfig.default))
    (Some (HandTracker.init ThereminConfig.default))
    (Some (Camera.mk true false)) false None.

(** A configuration whose frequency range starts above the 440 Hz
    fallback. *)
Definition high_range_config : ThereminConfig.t :=
  ThereminConfig.mk 0 640 480 44100 256 (500, 1000) (0, 1) "sine" (1 / 10)
    "volume" "frequency".

Definition high_range_theremin : CorporalTheremin.t :=
  CorporalTheremin.mk high_range_config
    (Some (AudioEngine.init high_range_config))
    (Some (HandTracker.init high_range_config))
    (Some (Camera.mk true false)) false None.

(** The default engine once started, playing 225 Hz at half volume. *)
Definition playing_engine : AudioEngine.t :=
  AudioEngine.update_parameters
    (AudioEngine.start (AudioEngine.init ThereminConfig.default))
    225 (1 / 2).

(** The audio device cannot be opened: the camera opens, the hand tracker
    is built, [PyAudio.open] raises. *)
Definition audio_unavailable : setup_env :=
  mk_env (Ok true) None None (Some (ExternalError "pyaudio")).

(** No resource of the object has been released. *)
Definition nothing_released (s : CorporalTheremin.t) : Prop :=
  (forall c, CorporalTheremin.camera s = Some c -> Camera.released c = false)
  /\ (forall h, CorporalTheremin.hand_tracker s = Some h ->
                HandTracker.hands_closed h = false).

(** The largest step between two consecutive samples of a sine of
    amplitude [volume] and frequency [freq] sampled at [sample_rate]:
    the slope bound [2 * pi * freq * volume] times the sample spacing. *)
Definition step_bound (sample_rate : Z) (freq volume : R) : R :=
  2 * PI * freq * volume / IZR sample_rate.

(** The default configuration with a frame of height zero. *)
Definition flat_config : ThereminConfig.t :=
  ThereminConfig.mk 0 640 0 44100 256 (200, 1000) (0, 1) "sine" (1 / 10)
    "volume" "frequency".

Definition flat_theremin : CorporalTheremin.t :=
  CorporalTheremin.mk flat_config
    (Some (AudioEngine.init flat_config))
    (Some (HandTracker.init flat_config))
    (Some (Camera.mk true false)) false None.

(** The default theremin while its processing loop runs. *)
Definition running_theremin : CorporalTheremin.t :=
  CorporalTheremin.set_is_running true default_theremin.

(** Every external constructor of [setup] succeeds. *)
Definition all_available : setup_env := mk_env (Ok true) None None None.

(** A frame with one hand, labelled "Left", in the upper half. *)
Definition one_left_hand : HandTracker.hands_result :=
  HandTracker.mk_result (Some [(1 / 2, 1 / 4)]) ["Left"].

(** A pass whose camera read delivered a frame. *)
Definition is_frame (rd : CorporalTheremin.camera_read) : bool :=
  match rd with
  | CorporalTheremin.ReadFrame _ => true
  | CorporalTheremin.ReadFailed => false
  end.


(** * Sequences of calls on the audio engine *)

(** A call made on the engine by the theremin or by PortAudio. *)
Inductive engine_call : Type :=
| CallUpdateParameters (frequency volume : R)
| CallSetWaveType (wave_type : string)
| CallStart
| CallStop
| CallAudioCallback (frame_count : Z).

(** The engine after one call; a callback that raises leaves it as it
    was. *)
Definition do_call (e : AudioEngine.t) (c : engine_call) : AudioEngine.t :=
  match c with
  | CallUpdateParameters f v => AudioEngine.update_parameters e f v
  | CallSetWaveType w => AudioEngine.set_wave_type e w
  | CallStart => AudioEngine.start e
  | CallStop => AudioEngine.stop e
  | CallAudioCallback n =>
      match AudioEngine.audio_callback e n with
      | Ok (_, e') => e'
      | Raise _ => e
      end
  end.

Definition run_calls (calls : list engine_call) (e : AudioEngine.t)
  : AudioEngine.t :=
  fold_left do_call calls e.

Definition valid_wave_type (w : string) : Prop :=
  In w ["sine"; "square"; "sawtooth"; "triangle"].

(** What every call on the engine keeps, relative to the engine [e0] the
    sequence started from. *)
Definition engine_inv (e0 e : AudioEngine.t) : Prop :=
  AudioEngine.config e = AudioEngine.config e0
  /\ valid_wave_type (AudioEngine.wave_type e)
  /\ 0 <= AudioEngine.current_phase e
  /\ AudioEngine.audio_terminated e = AudioEngine.audio_terminated e0
  /\ (AudioEngine.stream e = None <-> AudioEngine.stream e0 = None).

(** All MediaPipe wrists of a frame lie inside the image. *)
Definition wrists_in_frame (results : HandTracker.hands_result) : Prop :=
  forall lms, HandTracker.multi_hand_landmarks results = Some lms ->
  Forall (fun w : R * R => 0 <= fst w <= 1 /\ 0 <= snd w <= 1) lms.

(** The hands of a frame as [process_frame] walks them: each wrist paired
    with its label. *)
Definition detections (results : HandTracker.hands_result)
  : list ((R * R) * string) :=
  match HandTracker.multi_hand_landmarks results with
  | Some lms => combine lms (HandTracker.multi_handedness results)
  | None => []
  end.

(** The pixel position of a normalised wrist. *)
Definition pixel (cfg : ThereminConfig.t) (wrist : R * R) : hand_pos :=
  (py_int (fst wrist * IZR (ThereminConfig.frame_width cfg)),
   py_int (snd wrist * IZR (ThereminConfig.frame_height cfg))).

Definition is_left (d : (R * R) * string) : bool := snd d =? "Left".

(** A hand position lies within a [width] by [height] frame. *)
Definition in_frame (width height : Z) (p : option hand_pos) : Prop :=
  forall x y, p = Some (x, y) ->
  (0 <= x <= width)%Z /\ (0 <= y <= height)%Z.

(** A theremin whose three components exist, the tracker sharing the
    configuration of the object. *)
Definition ready (s : CorporalTheremin.t) : Prop :=
  (exists c, CorporalTheremin.camera s = Some c)
  /\ (exists h, CorporalTheremin.hand_tracker s = Some h
                /\ HandTracker.config h = CorporalTheremin.config s)
  /\ (exists e, CorporalTheremin.audio_engine s = Some e).

(** The engine parameters are what a mapping of hands inside the frame can
    have written on configuration [cfg]: a frequency between [freq_min]
    and the ceiling, or the fallback; a volume within the range, or the
    fallback. *)
Definition parameters_ok (cfg : ThereminConfig.t) (e : AudioEngine.t) : Prop :=
  (fst (ThereminConfig.frequency_range cfg) <= AudioEngine.frequency e
   <= frequency_ceiling cfg
   \/ AudioEngine.frequency e = 440)
  /\ (in_range (AudioEngine.volume e) (ThereminConfig.volume_range cfg)
      \/ AudioEngine.volume e = 0).

(** A camera read whose wrists, if a frame was read, lie inside the
    image. *)
Definition read_in_frame (rd : CorporalTheremin.camera_read) : Prop :=
  match rd with
  | CorporalTheremin.ReadFrame results => wrists_in_frame results
  | CorporalTheremin.ReadFailed => True
  end.

(** * The frequency interpolation in binary64 *)

(** The three lines of the frequency branches evaluated as Python does,
    in IEEE binary64 with each operation rounded to nearest: used to show
    where the rounding separates the code from the real-number formulas. *)
Module Doubles.

Import Floats.
Local Open Scope float_scope.

(** [float(n)] for an [int] below 2^53. *)
Definition of_int (n : Z) : float := PrimFloat.of_uint63 (Uint63.of_Z n).

(** [normalized_y = y / frame_height];
    [frequency = freq_min + (freq_max - freq_min) * normalized_y]. *)
Definition frequency (freq_min freq_max : float) (y frame_height : Z) : float :=
  let normalized_y := of_int y / of_int frame_height in
  freq_min + (freq_max - freq_min) * normalized_y.

(** The literals [110.1] and [440.3]. *)
Definition f110_1 : float := 0x1.b866666666666p+6.
Definition f440_3 : float := 0x1.b84cccccccccdp+8.

(** The next double after 440.3, printed [440.30000000000007]. *)
Definition f440_3_next : float := 0x1.b84cccccccccep+8.

End Doubles.

(** * Lemmas on the numeric primitives *)

Section Numeric.

Lemma py_clamp_in_range (lo hi v : R) :
  lo <= hi -> lo <= py_max lo (py_min hi v) <= hi.
Proof.
  intros Hle. unfold py_max, py_min.
  destruct (Rlt_dec v hi) as [Hv | Hv];
    destruct (Rlt_dec lo _) as [Hl | Hl]; lra.
Qed.

Lemma py_clamp_id (lo hi v : R) :
  lo <= v <= hi -> py_max lo (py_min hi v) = v.
Proof.
  intros [Hl Hh]. unfold py_max, py_min.
  destruct (Rlt_dec v hi) as [Hv | Hv];
    destruct (Rlt_dec lo _) as [Hl' | Hl']; lra.
Qed.

Lemma ratio_unit (y h : Z) :
  (0 < h)%Z -> (0 <= y <= h)%Z -> 0 <= IZR y / IZR h <= 1.
Proof.
  intros Hh [Hy0 Hy1].
  assert (Hh' : 0 < IZR h) by (apply IZR_lt; assumption).
  assert (H0 : 0 <= IZR y) by (apply IZR_le; assumption).
  assert (H1 : IZR y <= IZR h) by (apply IZR_le; assumption).
  split.
  - apply Rmult_le_pos; [assumption | left; apply Rinv_0_lt_compat; assumption].
  - apply (Rmult_le_reg_r (IZR h)); [assumption |].
    unfold Rdiv. rewrite Rmult_assoc, Rinv_l by lra. lra.
Qed.

Lemma np_clip_bound (a m : R) : 0 <= m -> Rabs (np_clip a (- m) m) <= m.
Proof.
  intros Hm. unfold np_clip, Rmin, Rmax.
  destruct (Rle_dec a (- m)); destruct (Rle_dec m _);
    apply Rabs_le; lra.
Qed.

Lemma floor_unit (x : R) : 0 <= x < 1 -> floor x = 0.
Proof.
  intros Hx. unfold floor.
  rewrite <- (Int_part_spec x 0); [reflexivity | simpl; lra].
Qed.

Lemma floor_bounds (x : R) : floor x <= x < floor x + 1.
Proof.
  unfold floor. destruct (base_Int_part x) as [H1 H2]. lra.
Qed.

Lemma py_fmod_small (x m : R) : 0 < m -> 0 <= x < m -> py_fmod x m = x.
Proof.
  intros Hm Hx. unfold py_fmod.
  rewrite floor_unit; [ring |].
  split.
  - apply Rmult_le_pos; [lra | left; apply Rinv_0_lt_compat; assumption].
  - apply (Rmult_lt_reg_r m); [assumption |].
    unfold Rdiv. rewrite Rmult_assoc, Rinv_l by lra. lra.
Qed.

Lemma py_fmod_range (x m : R) : 0 < m -> 0 <= py_fmod x m < m.
Proof.
  intros Hm. unfold py_fmod.
  destruct (floor_bounds (x / m)) as [H1 H2].
  assert (Hx : x = m * (x / m)) by (field; lra).
  split; nra.
Qed.

End Numeric.

Lemma ratio_monotone (y y' h : Z) :
  (0 < h)%Z -> (y <= y')%Z -> IZR y / IZR h <= IZR y' / IZR h.
Proof.
  intros Hh Hy. apply IZR_lt in Hh. apply IZR_le in Hy.
  unfold Rdiv. apply Rmult_le_compat_r; [| assumption].
  left. apply Rinv_0_lt_compat. assumption.
Qed.

(** * The coordinate-to-parameter mapping *)

Section Mapping.

Variable self : CorporalTheremin.t.

Let cfg : ThereminConfig.t := CorporalTheremin.config self.

Lemma map_hand_to_parameters_eq (left_hand right_hand : option hand_pos) :
  ThereminConfig.frame_height cfg <> 0%Z ->
  CorporalTheremin.map_hand_to_parameters self left_hand right_hand
  = Ok (mapped_frequency cfg left_hand right_hand,
        mapped_volume cfg left_hand right_hand).
Proof.
  intros Hh. apply Z.eqb_neq in Hh.
  unfold CorporalTheremin.map_hand_to_parameters, mapped_frequency,
    mapped_volume, frequency_hand, volume_hand, lerp_frequency, lerp_volume,
    clamp_volume, normalized, int_truediv.
  fold cfg. rewrite Hh.
  destruct (ThereminConfig.volume_range cfg) as [vol_min vol_max].
  destruct (ThereminConfig.frequency_range cfg) as [freq_min freq_max].
  destruct left_hand as [[lx ly] |], right_hand as [[rx ry] |]; simpl;
    destruct (String.eqb_spec (ThereminConfig.left_hand_controls cfg) "volume")
      as [Hlv | Hlv];
    destruct (String.eqb_spec (ThereminConfig.left_hand_controls cfg) "frequency")
      as [Hlf | Hlf];
    destruct (String.eqb_spec (ThereminConfig.right_hand_controls cfg) "volume")
      as [Hrv | Hrv];
    destruct (String.eqb_spec (ThereminConfig.right_hand_controls cfg) "frequency")
      as [Hrf | Hrf];
    simpl; try reflexivity; congruence.
Qed.

Lemma mapped_frequency_bounded (left_hand right_hand : option hand_pos) x y :
  (0 < ThereminConfig.frame_height cfg)%Z ->
  fst (ThereminConfig.frequency_range cfg)
    <= snd (ThereminConfig.frequency_range cfg) ->
  frequency_hand cfg left_hand right_hand = Some (x, y) ->
  (0 <= y <= ThereminConfig.frame_height cfg)%Z ->
  fst (ThereminConfig.frequency_range cfg)
    <= mapped_frequency cfg left_hand right_hand
    <= frequency_ceiling cfg.
Proof.
  intros Hh Hle Hhand Hy. unfold mapped_frequency. rewrite Hhand.
  unfold frequency_ceiling, lerp_frequency, normalized.
  destruct (ThereminConfig.frequency_range cfg) as [freq_min freq_max].
  simpl in *.
  pose proof (ratio_unit y _ Hh Hy) as [H0 H1].
  pose proof (ratio_monotone y _ _ Hh (proj2 Hy)) as Hm.
  split; nra.
Qed.

Lemma mapped_volume_in_range (left_hand right_hand : option hand_pos) p :
  fst (ThereminConfig.volume_range cfg)
    <= snd (ThereminConfig.volume_range cfg) ->
  volume_hand cfg left_hand right_hand = Some p ->
  in_range (mapped_volume cfg left_hand right_hand)
           (ThereminConfig.volume_range cfg).
Proof.
  intros Hle Hhand. unfold mapped_volume. rewrite Hhand.
  destruct p as [x y].
  unfold clamp_volume, in_range.
  destruct (ThereminConfig.volume_range cfg) as [vol_min vol_max].
  simpl in *. apply py_clamp_in_range. assumption.
Qed.

Lemma frequency_hand_is_present (left_hand right_hand : option hand_pos) p :
  frequency_hand cfg left_hand right_hand = Some p ->
  left_hand = Some p \/ right_hand = Some p.
Proof.
  unfold frequency_hand.
  destruct left_hand, right_hand;
    repeat match goal with
           | |- context [if ?b then _ else _] => destruct b
           end; intros H; inversion H; auto.
Qed.

End Mapping.

(** C2.  With both hands absent the mapping returns, whatever the
    configuration (even a zero frame height) and whatever the engine
    currently plays, the volume exactly zero. *)
Theorem both_hands_absent_volume_zero (self : CorporalTheremin.t) :
  exists frequency,
    CorporalTheremin.map_hand_to_parameters self None None
    = Ok (frequency, 0).
Proof. exists 440. reflexivity. Qed.

Lemma mapping_step_writes
    (self : CorporalTheremin.t) (left_hand right_hand : option hand_pos)
    (e : AudioEngine.t) :
  ThereminConfig.frame_height (CorporalTheremin.config self) <> 0%Z ->
  CorporalTheremin.audio_engine self = Some e ->
  CorporalTheremin.mapping_step left_hand right_hand self
  = (CorporalTheremin.set_audio_engine
       (Some (AudioEngine.update_parameters e
                (mapped_frequency (CorporalTheremin.config self)
                   left_hand right_hand)
                (mapped_volume (CorporalTheremin.config self)
                   left_hand right_hand))) self,
     Ok tt).
Proof.
  intros Hh He.
  unfold CorporalTheremin.mapping_step, CorporalTheremin.bind,
    CorporalTheremin.get, CorporalTheremin.modify.
  rewrite map_hand_to_parameters_eq by assumption.
  rewrite He. reflexivity.
Qed.

(** C1, as amended.  On a well-formed configuration (positive frame
    height, ordered ranges) and hand heights within [0, frame_height], the
    mapping returns.  The volume is clamped: it lies in [volume_range]
    whenever a present hand is assigned to the volume and is the fixed 0
    otherwise.  The frequency is not clamped: whenever a present hand is
    assigned to it, it is at least [freq_min] and at most the value of the
    interpolation at the bottom edge [y = frame_height] (which is
    [freq_max] only up to rounding), and it is the fixed 440 otherwise.
    These two values are what the mapping step writes into the audio
    engine. *)
Theorem mapped_parameters_bounded_or_default
    (self : CorporalTheremin.t) (left_hand right_hand : option hand_pos) :
  let cfg := CorporalTheremin.config self in
  (0 < ThereminConfig.frame_height cfg)%Z ->
  fst (ThereminConfig.frequency_range cfg)
    <= snd (ThereminConfig.frequency_range cfg) ->
  fst (ThereminConfig.volume_range cfg)
    <= snd (ThereminConfig.volume_range cfg) ->
  (forall x y, left_hand = Some (x, y) ->
               (0 <= y <= ThereminConfig.frame_height cfg)%Z) ->
  (forall x y, right_hand = Some (x, y) ->
               (0 <= y <= ThereminConfig.frame_height cfg)%Z) ->
  exists frequency volume,
    CorporalTheremin.map_hand_to_parameters self left_hand right_hand
    = Ok (frequency, volume)
    /\ match frequency_hand cfg left_hand right_hand with
       | Some _ =>
           fst (ThereminConfig.frequency_range cfg) <= frequency
           <= frequency_ceiling cfg
       | None => frequency = 440
       end
    /\ match volume_hand cfg left_hand right_hand with
       | Some _ => in_range volume (ThereminConfig.volume_range cfg)
       | None => volume = 0
       end
    /\ forall e,
         CorporalTheremin.audio_engine self = Some e ->
         CorporalTheremin.mapping_step left_hand right_hand self
         = (CorporalTheremin.set_audio_engine
              (Some (AudioEngine.update_parameters e frequency volume)) self,
            Ok tt).
Proof.
  intros cfg Hh Hf Hv Hl Hr.
  exists (mapped_frequency cfg left_hand right_hand),
         (mapped_volume cfg left_hand right_hand).
  split; [apply map_hand_to_parameters_eq; fold cfg; lia |].
  split; [| split; [| intros e He; apply mapping_step_writes;
                      [fold cfg; lia | exact He]]].
  - destruct (frequency_hand cfg left_hand right_hand) as [[x y] |] eqn:E.
    + apply (mapped_frequency_bounded self left_hand right_hand x y);
        try assumption.
      destruct (frequency_hand_is_present self _ _ _ E) as [H | H];
        [apply (Hl x) | apply (Hr x)]; assumption.
    + unfold mapped_frequency. rewrite E. reflexivity.
  - destruct (volume_hand cfg left_hand right_hand) as [p |] eqn:E.
    + apply (mapped_volume_in_range self left_hand right_hand p); assumption.
    + unfold mapped_volume. rewrite E. reflexivity.
Qed.

Lemma mapped_parameters_bounded_or_default_witness :
  exists frequency volume,
    CorporalTheremin.map_hand_to_parameters default_theremin
      (Some (100, 120)%Z) (Some (500, 240)%Z)
    = Ok (frequency, volume)
    /\ 200 <= frequency <= frequency_ceiling ThereminConfig.default
    /\ in_range volume (0, 1).
Proof.
  destruct (mapped_parameters_bounded_or_default default_theremin
              (Some (100, 120)%Z) (Some (500, 240)%Z))
    as (f & v & Hmap & Hf & Hv & _); simpl.
  - lia.
  - lra.
  - lra.
  - intros x y H. inversion H. lia.
  - intros x y H. inversion H. lia.
  - exists f, v. split; [exact Hmap |]. split; [exact Hf | exact Hv].
Defined.

(** In binary64 the ceiling can pass [freq_max]: on the range
    (110.1, 440.3) a hand at the bottom edge, [y = frame_height = 480],
    gets 440.30000000000007, one unit in the last place above 440.3.  This
    is why the frequency is bounded by the ceiling and not by
    [freq_max]. *)
Lemma frequency_ceiling_above_freq_max_in_doubles :
  Doubles.frequency Doubles.f110_1 Doubles.f440_3 480 480
  = Doubles.f440_3_next
  /\ PrimFloat.ltb Doubles.f440_3
       (Doubles.frequency Doubles.f110_1 Doubles.f440_3 480 480)
     = true
  /\ PrimFloat.leb Doubles.f110_1
       (Doubles.frequency Doubles.f110_1 Doubles.f440_3 480 480)
     = true.
Proof. repeat split; vm_compute; reflexivity. Qed.

(** C1, counterexample.  Only the left (volume) hand is present, at the
    valid height 240 of 480: the returned frequency is the fallback 440,
    outside the configured range (500, 1000). *)
Lemma mapped_frequency_outside_range :
  exists frequency volume,
    CorporalTheremin.map_hand_to_parameters high_range_theremin
      (Some (320, 240)%Z) None
    = Ok (frequency, volume)
    /\ (0 <= 240 <= ThereminConfig.frame_height high_range_config)%Z
    /\ ~ in_range frequency (ThereminConfig.frequency_range high_range_config).
Proof.
  eexists; eexists. split; [| split].
  - rewrite map_hand_to_parameters_eq by (simpl; lia). reflexivity.
  - simpl. lia.
  - unfold mapped_frequency, in_range. simpl. lra.
Qed.





(** * The audio engine *)

Section Engine.

Variable e : AudioEngine.t.

Let sr : Z := ThereminConfig.sample_rate (AudioEngine.config e).

(** The modulus of the phase wrap: the period, or one second when the
    frequency is not positive. *)
Let period : R :=
  if Rlt_dec 0 (AudioEngine.frequency e) then 1 / AudioEngine.frequency e else 1.

Lemma period_pos : 0 < period.
Proof.
  unfold period. destruct (Rlt_dec 0 (AudioEngine.frequency e)) as [Hf | Hf].
  - unfold Rdiv. rewrite Rmult_1_l. apply Rinv_0_lt_compat. assumption.
  - lra.
Qed.

Lemma generate_wave_ok (num_samples : Z) :
  sr <> 0%Z ->
  AudioEngine.generate_wave e num_samples
  = Ok (map (AudioEngine.sample_at e) (np_arange num_samples),
        AudioEngine.set_current_phase e
          (py_fmod (AudioEngine.current_phase e + IZR num_samples / IZR sr)
                   period)).
Proof.
  intros Hsr. apply Z.eqb_neq in Hsr.
  unfold AudioEngine.generate_wave, int_truediv. fold sr. rewrite Hsr.
  reflexivity.
Qed.

Lemma np_arange_length (n : Z) : List.length (np_arange n) = Z.to_nat n.
Proof. unfold np_arange. rewrite length_map, length_seq. reflexivity. Qed.

Lemma np_arange_nth (n i : Z) :
  (0 <= i < n)%Z -> nth (Z.to_nat i) (np_arange n) 0%Z = i.
Proof.
  intros Hi. unfold np_arange.
  change 0%Z with (Z.of_nat 0). rewrite map_nth, seq_nth by lia.
  simpl. lia.
Qed.

Lemma samples_nth (n i : Z) :
  (0 <= i < n)%Z ->
  nth (Z.to_nat i) (map (AudioEngine.sample_at e) (np_arange n)) 0
  = AudioEngine.sample_at e i.
Proof.
  intros Hi.
  rewrite (nth_indep _ 0 (AudioEngine.sample_at e 0%Z))
    by (rewrite length_map, np_arange_length; lia).
  rewrite map_nth, np_arange_nth by assumption. reflexivity.
Qed.

Lemma sample_at_bound (i : Z) : Rabs (AudioEngine.sample_at e i) <= 9 / 10.
Proof. unfold AudioEngine.sample_at. apply np_clip_bound. lra. Qed.

End Engine.

Lemma wave_at_kind (k : wave_kind) (freq t_global : R) :
  AudioEngine.wave_at (kind_name k) freq t_global = wave_shape k freq t_global.
Proof. destruct k; reflexivity. Qed.

Lemma str_in_kind_name (k : wave_kind) :
  str_in (kind_name k) ["sine"; "square"; "sawtooth"; "triangle"] = true.
Proof. destruct k; reflexivity. Qed.

Lemma str_in_false (s : string) (l : list string) :
  ~ In s l -> str_in s l = false.
Proof.
  intros Hn. unfold str_in.
  destruct (existsb (String.eqb s) l) eqn:E; [| reflexivity].
  apply existsb_exists in E. destruct E as (x & Hx & Heq).
  apply String.eqb_eq in Heq. subst x. contradiction.
Qed.

Lemma generate_wave_phase_and_buffer (e : AudioEngine.t) (num_samples : Z) :
  ThereminConfig.sample_rate (AudioEngine.config e) <> 0%Z ->
  exists wave e',
    AudioEngine.generate_wave e num_samples = Ok (wave, e')
    /\ wave = map (AudioEngine.sample_at e) (np_arange num_samples).
Proof.
  intros Hsr. eexists; eexists.
  split; [apply generate_wave_ok; exact Hsr | reflexivity].
Qed.

(** C4.  A call of [generate_wave] that returns (the sample rate is not
    zero) advances [current_phase] by exactly [num_samples / sample_rate]
    and wraps it modulo [1 / frequency], or modulo 1 when the frequency is
    not positive: the new phase is the old one plus
    [num_samples / sample_rate] minus a whole number of periods, and lies
    in [0, period).  Every other attribute is left alone; the buffer has
    [num_samples] samples and sample [i] is the clipped, volume-scaled
    waveform at time [i / sample_rate + current_phase], with the phase of
    before the call. *)
Theorem generate_wave_phase_advance (e : AudioEngine.t) (num_samples : Z) :
  let sr := ThereminConfig.sample_rate (AudioEngine.config e) in
  let period :=
    if Rlt_dec 0 (AudioEngine.frequency e)
    then 1 / AudioEngine.frequency e else 1 in
  sr <> 0%Z ->
  exists wave e',
    AudioEngine.generate_wave e num_samples = Ok (wave, e')
    /\ AudioEngine.current_phase e'
       = py_fmod (AudioEngine.current_phase e + IZR num_samples / IZR sr) period
    /\ (exists k : Z,
          AudioEngine.current_phase e'
          = AudioEngine.current_phase e + IZR num_samples / IZR sr
            - IZR k * period)
    /\ 0 <= AudioEngine.current_phase e' < period
    /\ e' = AudioEngine.set_current_phase e (AudioEngine.current_phase e')
    /\ List.length wave = Z.to_nat num_samples
    /\ forall i, (0 <= i < num_samples)%Z ->
         nth (Z.to_nat i) wave 0
         = np_clip
             (AudioEngine.wave_at (AudioEngine.wave_type e)
                (AudioEngine.frequency e)
                (IZR i / IZR sr + AudioEngine.current_phase e)
              * AudioEngine.volume e)
             (- (9 / 10)) (9 / 10).
Proof.
  intros sr period Hsr.
  eexists; eexists. split; [apply generate_wave_ok; exact Hsr |].
  split; [reflexivity |].
  split.
  { simpl. unfold py_fmod, floor.
    eexists. rewrite (Rmult_comm (IZR _)). reflexivity. }
  split; [apply py_fmod_range; apply period_pos |].
  split; [reflexivity |].
  split; [rewrite length_map; apply np_arange_length |].
  intros i Hi. rewrite samples_nth by assumption. reflexivity.
Qed.

(** C5.  Whatever the frequency, the volume, the wave type and the sample
    count, a call of [generate_wave] that returns yields only samples of
    magnitude at most 0.9, below full scale. *)
Theorem generate_wave_clipped (e : AudioEngine.t) (num_samples : Z) :
  ThereminConfig.sample_rate (AudioEngine.config e) <> 0%Z ->
  exists wave e',
    AudioEngine.generate_wave e num_samples = Ok (wave, e')
    /\ Forall (fun s => Rabs s <= 9 / 10) wave
    /\ 9 / 10 < 1.
Proof.
  intros Hsr. eexists; eexists.
  split; [apply generate_wave_ok; exact Hsr |].
  split; [| lra].
  apply Forall_forall. intros s Hs.
  apply in_map_iff in Hs. destruct Hs as (i & <- & _).
  apply sample_at_bound.
Qed.

(** C7.  After [set_wave_type] with one of the four kinds, the next call
    of [generate_wave] computes every sample with the shape of that kind,
    at the frequency, phase and volume the engine already had. *)
Theorem set_wave_type_next_buffer
    (e : AudioEngine.t) (k : wave_kind) (num_samples : Z) :
  let sr := ThereminConfig.sample_rate (AudioEngine.config e) in
  sr <> 0%Z ->
  exists wave e',
    AudioEngine.generate_wave
      (AudioEngine.set_wave_type e (kind_name k)) num_samples
    = Ok (wave, e')
    /\ AudioEngine.wave_type e' = kind_name k
    /\ wave
       = map (fun i =>
                np_clip
                  (wave_shape k (AudioEngine.frequency e)
                     (IZR i / IZR sr + AudioEngine.current_phase e)
                   * AudioEngine.volume e)
                  (- (9 / 10)) (9 / 10))
             (np_arange num_samples).
Proof.
  intros sr Hsr.
  assert (Hset : AudioEngine.set_wave_type e (kind_name k)
                 = AudioEngine.mk (AudioEngine.config e)
                     (AudioEngine.audio_terminated e) (AudioEngine.stream e)
                     (AudioEngine.is_playing e) (AudioEngine.current_phase e)
                     (AudioEngine.frequency e) (AudioEngine.volume e)
                     (kind_name k)).
  { unfold AudioEngine.set_wave_type. rewrite str_in_kind_name. reflexivity. }
  rewrite Hset. eexists; eexists.
  split; [apply generate_wave_ok; exact Hsr |].
  split; [reflexivity |].
  apply map_ext. intros i. unfold AudioEngine.sample_at. simpl.
  rewrite wave_at_kind. reflexivity.
Qed.

Lemma generate_wave_phase_advance_witness :
  exists wave e',
    AudioEngine.generate_wave playing_engine 50 = Ok (wave, e')
    /\ AudioEngine.current_phase e' = 50 / 44100
    /\ List.length wave = 50%nat.
Proof.
  destruct (generate_wave_phase_advance playing_engine 50)
    as (wave & e' & Hgen & _ & (k & Hk) & Hrange & _ & Hlen & _).
  - simpl. lia.
  - exists wave, e'. split; [exact Hgen |]. split; [| exact Hlen].
    simpl in Hk, Hrange.
    destruct (Rlt_dec 0 225) as [_ | Hn]; [| lra].
    assert (Hk0 : k = 0%Z).
    { assert (H1 : (k < 1)%Z) by (apply lt_IZR; lra).
      assert (H2 : (-1 < k)%Z) by (apply lt_IZR; lra).
      lia. }
    subst k. lra.
Defined.

Lemma generate_wave_clipped_witness :
  exists wave e',
    AudioEngine.generate_wave playing_engine 256 = Ok (wave, e')
    /\ Forall (fun s => Rabs s <= 9 / 10) wave
    /\ 9 / 10 < 1.
Proof.
  apply (generate_wave_clipped playing_engine 256). simpl. lia.
Defined.

Lemma set_wave_type_next_buffer_witness :
  exists wave e',
    AudioEngine.generate_wave
      (AudioEngine.set_wave_type playing_engine "square") 2
    = Ok (wave, e')
    /\ AudioEngine.wave_type e' = "square"
    /\ wave
       = [ np_clip (np_sign (sin (2 * PI * 225 * (0 / 44100 + 0))) * (1 / 2))
             (- (9 / 10)) (9 / 10);
           np_clip (np_sign (sin (2 * PI * 225 * (1 / 44100 + 0))) * (1 / 2))
             (- (9 / 10)) (9 / 10) ].
Proof.
  apply (set_wave_type_next_buffer playing_engine Square 2). simpl. lia.
Defined.

(** C9.  When the engine is not playing, or its volume is below 0.01,
    [audio_callback] returns [frame_count] zero samples and the engine is
    exactly the one it was called on: phase, frequency, volume and wave
    type included. *)
Theorem audio_callback_silent_frame (e : AudioEngine.t) (frame_count : Z) :
  (0 <= frame_count)%Z ->
  AudioEngine.is_playing e = false \/ AudioEngine.volume e < 1 / 100 ->
  AudioEngine.audio_callback e frame_count
  = Ok (repeat 0 (Z.to_nat frame_count), e)
  /\ List.length (repeat 0 (Z.to_nat frame_count)) = Z.to_nat frame_count.
Proof.
  intros Hn Hsilent. split; [| apply repeat_length].
  unfold AudioEngine.audio_callback, AudioEngine.np_zeros.
  assert (Hcond :
            negb (AudioEngine.is_playing e)
            || (if Rlt_dec (AudioEngine.volume e) (1 / 100) then true else false)
            = true).
  { destruct Hsilent as [Hp | Hv].
    - rewrite Hp. reflexivity.
    - destruct (Rlt_dec (AudioEngine.volume e) (1 / 100)); [| contradiction].
      apply orb_true_r. }
  rewrite Hcond.
  destruct (Z.ltb_spec frame_count 0); [lia | reflexivity].
Qed.

Lemma audio_callback_silent_frame_witness :
  AudioEngine.audio_callback (AudioEngine.init ThereminConfig.default) 3
  = Ok ([0; 0; 0], AudioEngine.init ThereminConfig.default)
  /\ List.length (repeat 0 (Z.to_nat 3)) = 3%nat.
Proof.
  apply (audio_callback_silent_frame (AudioEngine.init ThereminConfig.default) 3).
  - lia.
  - left. reflexivity.
Defined.

Lemma set_audio_engine_same (th : CorporalTheremin.t) (e : AudioEngine.t) :
  CorporalTheremin.audio_engine th = Some e ->
  CorporalTheremin.set_audio_engine (Some e) th = th.
Proof.
  intros H. destruct th. simpl in H. subst.
  reflexivity.
Qed.

(** C10.  A string that is none of the four kinds is ignored by
    [AudioEngine.set_wave_type]: the engine is returned as it was, and so
    is a theremin that owns an engine, without an exception.  The route
    [POST /api/wave_type] answers such a string with a failure and leaves
    the application state as it was. *)
Theorem unknown_wave_type_ignored (wave_type : string) :
  ~ In wave_type ["sine"; "square"; "sawtooth"; "triangle"] ->
  (forall e : AudioEngine.t, AudioEngine.set_wave_type e wave_type = e)
  /\ (forall (th : CorporalTheremin.t) (e : AudioEngine.t),
        CorporalTheremin.audio_engine th = Some e ->
        CorporalTheremin.set_wave_type wave_type th = (th, Ok tt))
  /\ (forall api : ThereminAPI.t,
        ThereminAPI.update_wave_type_route api (Some wave_type)
        = (api, Ok (ThereminAPI.mk_response false "Tipo de onda no válido"))).
Proof.
  intros Hn. apply str_in_false in Hn.
  assert (Heng : forall e : AudioEngine.t,
             AudioEngine.set_wave_type e wave_type = e).
  { intros e. unfold AudioEngine.set_wave_type. rewrite Hn. reflexivity. }
  split; [exact Heng |]. split.
  - intros th e He.
    unfold CorporalTheremin.set_wave_type, CorporalTheremin.bind,
      CorporalTheremin.get, CorporalTheremin.modify.
    rewrite He, Heng, set_audio_engine_same by assumption. reflexivity.
  - intros api.
    unfold ThereminAPI.update_wave_type_route. rewrite Hn. reflexivity.
Qed.

Lemma unknown_wave_type_ignored_witness :
  AudioEngine.set_wave_type playing_engine "noise" = playing_engine
  /\ ThereminAPI.update_wave_type_route
       (ThereminAPI.mk (Some default_theremin) None) (Some "noise")
     = (ThereminAPI.mk (Some default_theremin) None,
        Ok (ThereminAPI.mk_response false "Tipo de onda no válido")).
Proof.
  destruct (unknown_wave_type_ignored "noise") as (Heng & _ & Hroute).
  - simpl. intros [H | [H | [H | [H | []]]]]; discriminate H.
  - split; [apply Heng | apply Hroute].
Defined.

(** * Phase continuity across buffers *)

Lemma np_clip_id (a m : R) : - m <= a <= m -> np_clip a (- m) m = a.
Proof.
  intros [Hlo Hhi]. unfold np_clip, Rmin, Rmax.
  destruct (Rle_dec a (- m)); destruct (Rle_dec m _); lra.
Qed.

(** C3, evaluated on two consecutive buffers of 50 samples of the default
    sine engine at half volume: 225 Hz for the first, 661.5 Hz for the
    second.  The first buffer ends on the crest 1/2, the second starts on
    the trough -1/2: a jump of 1 between neighbouring samples, above the
    step bound of either frequency. *)
Theorem frequency_change_breaks_continuity :
  exists w1 e1 w2 e2,
    AudioEngine.generate_wave playing_engine 50 = Ok (w1, e1)
    /\ AudioEngine.generate_wave
         (AudioEngine.update_parameters e1 (1323 / 2) (1 / 2)) 50
       = Ok (w2, e2)
    /\ nth 49 (w1 ++ w2) 0 = 1 / 2
    /\ nth 50 (w1 ++ w2) 0 = - (1 / 2)
    /\ step_bound 44100 225 (1 / 2) < step_bound 44100 (1323 / 2) (1 / 2)
    /\ step_bound 44100 (1323 / 2) (1 / 2)
       < Rabs (nth 50 (w1 ++ w2) 0 - nth 49 (w1 ++ w2) 0).
Proof.
  assert (Hphase : py_fmod (0 + 50 / 44100) (1 / 225) = 50 / 44100).
  { rewrite py_fmod_small by lra. lra. }
  assert (H49 : AudioEngine.sample_at playing_engine 49 = 1 / 2).
  { unfold AudioEngine.sample_at, playing_engine. simpl.
    rewrite (wave_at_kind Sine). unfold wave_shape.
    replace (2 * PI * 225 * (49 / 44100 + 0)) with (PI / 2) by field.
    rewrite sin_PI2. rewrite Rmult_1_l. apply np_clip_id. lra. }
  pose (e1 :=
          AudioEngine.set_current_phase playing_engine
            (py_fmod (0 + 50 / 44100) (1 / 225))).
  pose (e1' := AudioEngine.update_parameters e1 (1323 / 2) (1 / 2)).
  assert (H50 : AudioEngine.sample_at e1' 0 = - (1 / 2)).
  { unfold AudioEngine.sample_at, e1', e1, playing_engine. simpl.
    rewrite Hphase, (wave_at_kind Sine). unfold wave_shape.
    replace (2 * PI * (1323 / 2) * (0 / 44100 + 50 / 44100))
      with (3 * (PI / 2)) by field.
    rewrite sin_3PI2.
    replace (-1 * (1 / 2)) with (- (1 / 2)) by ring.
    apply np_clip_id. lra. }
  assert (Hgen1 : AudioEngine.generate_wave playing_engine 50
                  = Ok (map (AudioEngine.sample_at playing_engine)
                          (np_arange 50), e1)).
  { rewrite generate_wave_ok by (simpl; lia). unfold e1. simpl.
    destruct (Rlt_dec 0 225) as [_ | Hn]; [reflexivity | lra]. }
  destruct (generate_wave_phase_and_buffer e1' 50) as (w2 & e2 & Hgen2 & Hw2);
    [simpl; lia |].
  exists (map (AudioEngine.sample_at playing_engine) (np_arange 50)), e1, w2, e2.
  assert (Hn49 : nth 49 (map (AudioEngine.sample_at playing_engine)
                            (np_arange 50) ++ w2) 0 = 1 / 2).
  { rewrite app_nth1 by (rewrite length_map, np_arange_length; simpl; lia).
    rewrite <- H49. apply (samples_nth playing_engine 50 49). lia. }
  assert (Hn50 : nth 50 (map (AudioEngine.sample_at playing_engine)
                            (np_arange 50) ++ w2) 0 = - (1 / 2)).
  { rewrite app_nth2 by (rewrite length_map, np_arange_length; simpl; lia).
    rewrite length_map, np_arange_length. simpl.
    rewrite Hw2, <- H50. apply (samples_nth e1' 50 0). lia. }
  split; [exact Hgen1 |]. split; [exact Hgen2 |].
  split; [exact Hn49 |]. split; [exact Hn50 |].
  rewrite Hn49, Hn50. unfold step_bound.
  pose proof PI_4 as Hpi. pose proof PI_RGT_0 as Hpi0.
  split; [lra |].
  replace (- (1 / 2) - 1 / 2) with (- (1)) by lra.
  rewrite Rabs_Ropp, Rabs_R1. lra.
Qed.

(** * Failure of [setup] *)

(** On a theremin whose three components exist, [cleanup] returns and has
    released all of them. *)
Lemma cleanup_releases_all :
  CorporalTheremin.cleanup default_theremin
  = (CorporalTheremin.mk ThereminConfig.default
       (Some (AudioEngine.cleanup (AudioEngine.init ThereminConfig.default)))
       (Some (HandTracker.cleanup (HandTracker.init ThereminConfig.default)))
       (Some (Camera.mk false true)) false None,
     Ok tt).
Proof. reflexivity. Qed.

(** Whichever step of [setup] raises, the audio engine has not been
    assigned yet, so the [cleanup] of the handler raises [AttributeError]
    from [stop]: that is the exception which leaves [setup], and nothing
    has been released. *)
Lemma setup_failure_general
    (cfg : ThereminConfig.t) (env : setup_env)
    (s : CorporalTheremin.t) (e : exn) :
  CorporalTheremin.new cfg env = (s, Raise e) ->
  e = AttributeError
  /\ CorporalTheremin.audio_engine s = None
  /\ nothing_released s.
Proof.
  unfold CorporalTheremin.new, CorporalTheremin.setup,
    CorporalTheremin.try_except, CorporalTheremin.open_camera,
    CorporalTheremin.new_hand_tracker, CorporalTheremin.new_audio_engine,
    nothing_released.
  destruct env as [[opened | e0] [e1 |] [e2 |] [e3 |]]; simpl;
    intros H; inversion H; subst; simpl;
    (split; [reflexivity |]); (split; [reflexivity |]);
    split; intros x Hx; inversion Hx; reflexivity.
Qed.

(** C8, evaluated when the audio device is unavailable.  [setup] ends with
    [AttributeError] instead of the error of [PyAudio.open]; the camera is
    still open and unreleased, the hand tracker is not closed. *)
Theorem setup_failure_skips_release :
  CorporalTheremin.new ThereminConfig.default audio_unavailable
  = (CorporalTheremin.mk ThereminConfig.default None
       (Some (HandTracker.mk ThereminConfig.default false None None))
       (Some (Camera.mk true false)) false None,
     Raise AttributeError)
  /\ AttributeError <> ExternalError "pyaudio".
Proof. split; [reflexivity | discriminate]. Qed.

(** * Continuity at a constant frequency *)

Section Periodicity.

Lemma sin_period_Z (x : R) (k : Z) : sin (x + 2 * IZR k * PI) = sin x.
Proof.
  destruct (Z_le_gt_dec 0 k) as [Hk | Hk].
  - rewrite <- (Z2Nat.id k Hk), <- INR_IZR_INZ. apply sin_period.
  - rewrite <- (sin_period (x + 2 * IZR k * PI) (Z.to_nat (- k))).
    rewrite INR_IZR_INZ, Z2Nat.id by lia. rewrite opp_IZR.
    f_equal. ring.
Qed.

Lemma floor_shift (x : R) (k : Z) : floor (x - IZR k) = floor x - IZR k.
Proof.
  unfold floor. rewrite <- minus_IZR. f_equal. symmetry.
  apply Int_part_spec. rewrite minus_IZR.
  destruct (base_Int_part x) as [H1 H2]. lra.
Qed.

Lemma wave_at_periodic (wt : string) (freq t_global : R) (k : Z) :
  0 < freq ->
  AudioEngine.wave_at wt freq (t_global - IZR k / freq)
  = AudioEngine.wave_at wt freq t_global.
Proof.
  intros Hf. unfold AudioEngine.wave_at.
  replace (2 * PI * freq * (t_global - IZR k / freq))
    with (2 * PI * freq * t_global + 2 * IZR (- k) * PI)
    by (rewrite opp_IZR; field; lra).
  rewrite sin_period_Z.
  replace ((t_global - IZR k / freq) * freq)
    with (t_global * freq - IZR k) by (field; lra).
  replace (1 / 2 + (t_global * freq - IZR k))
    with (1 / 2 + t_global * freq - IZR k) by ring.
  replace (t_global * freq - IZR k + 1 / 2)
    with (t_global * freq + 1 / 2 - IZR k) by ring.
  rewrite !floor_shift.
  replace (t_global * freq - IZR k - (floor (1 / 2 + t_global * freq) - IZR k))
    with (t_global * freq - floor (1 / 2 + t_global * freq)) by ring.
  replace (t_global * freq - IZR k - (floor (t_global * freq + 1 / 2) - IZR k))
    with (t_global * freq - floor (t_global * freq + 1 / 2)) by ring.
  reflexivity.
Qed.

Lemma seq_from (a n : nat) : seq a n = map (Nat.add a) (seq 0 n).
Proof.
  induction a as [| a IH].
  - simpl. symmetry. apply map_id.
  - rewrite <- seq_shift, IH, map_map. reflexivity.
Qed.

Lemma np_arange_app (n1 n2 : Z) :
  (0 <= n1)%Z -> (0 <= n2)%Z ->
  np_arange (n1 + n2) = (np_arange n1 ++ map (Z.add n1) (np_arange n2))%list.
Proof.
  intros H1 H2. unfold np_arange.
  rewrite Z2Nat.inj_add, seq_app, map_app by assumption.
  f_equal. simpl. rewrite seq_from, !map_map.
  apply map_ext. intros i. lia.
Qed.

End Periodicity.

Section Continuity.

Variable e : AudioEngine.t.

Let sr : Z := ThereminConfig.sample_rate (AudioEngine.config e).

Hypothesis sr_nonzero : sr <> 0%Z.

(** The engine after a buffer of [n] samples. *)
Let after (n : Z) : AudioEngine.t :=
  AudioEngine.set_current_phase e
    (py_fmod (AudioEngine.current_phase e + IZR n / IZR sr)
       (if Rlt_dec 0 (AudioEngine.frequency e)
        then 1 / AudioEngine.frequency e else 1)).

Lemma sample_after_buffer (n i : Z) :
  0 < AudioEngine.frequency e ->
  AudioEngine.sample_at (after n) i = AudioEngine.sample_at e (n + i).
Proof.
  intros Hf. unfold AudioEngine.sample_at, after. simpl. fold sr.
  destruct (Rlt_dec 0 (AudioEngine.frequency e)) as [_ | Hn]; [| contradiction].
  assert (Hsr : IZR sr <> 0) by (apply not_0_IZR; exact sr_nonzero).
  unfold py_fmod, floor.
  set (K := Int_part _).
  replace (IZR i / IZR sr
           + (AudioEngine.current_phase e + IZR n / IZR sr
              - 1 / AudioEngine.frequency e * IZR K))
    with (IZR (n + i) / IZR sr + AudioEngine.current_phase e
          - IZR K / AudioEngine.frequency e)
    by (rewrite plus_IZR; field; split; lra).
  rewrite wave_at_periodic by assumption. reflexivity.
Qed.

Lemma buffers_join (n1 n2 : Z) :
  0 < AudioEngine.frequency e -> (0 <= n1)%Z -> (0 <= n2)%Z ->
  (map (AudioEngine.sample_at e) (np_arange n1)
   ++ map (AudioEngine.sample_at (after n1)) (np_arange n2))%list
  = map (AudioEngine.sample_at e) (np_arange (n1 + n2)).
Proof.
  intros Hf H1 H2. rewrite np_arange_app, map_app, map_map by assumption.
  f_equal. apply map_ext. intros i. apply sample_after_buffer. assumption.
Qed.

End Continuity.

Section Lipschitz.

Lemma sin_abs_le (x : R) : Rabs (sin x) <= Rabs x.
Proof.
  assert (Hpos : forall y, 0 < y -> Rabs (sin y) <= y).
  { intros y Hy. apply Rabs_le. split.
    - destruct (Rle_lt_dec 1 y) as [H1 | H1].
      + pose proof (SIN_bound y). lra.
      + pose proof PI2_3_2.
        assert (0 < sin y) by (apply sin_gt_0; lra). lra.
    - left. apply sin_lt_x. assumption. }
  destruct (Rtotal_order x 0) as [Hx | [Hx | Hx]].
  - rewrite <- (Ropp_involutive x) at 1. rewrite sin_neg, Rabs_Ropp.
    rewrite (Rabs_left x) by assumption. apply Hpos. lra.
  - subst x. rewrite sin_0. lra.
  - rewrite (Rabs_right x) by lra. apply Hpos. assumption.
Qed.

Lemma sin_lipschitz (a b : R) : Rabs (sin a - sin b) <= Rabs (a - b).
Proof.
  rewrite form4, !Rabs_mult.
  pose proof (COS_bound ((a + b) / 2)) as Hc.
  assert (Hc' : Rabs (cos ((a + b) / 2)) <= 1) by (apply Rabs_le; lra).
  pose proof (sin_abs_le ((a - b) / 2)) as Hs.
  pose proof (Rabs_pos (cos ((a + b) / 2))).
  pose proof (Rabs_pos (sin ((a - b) / 2))).
  replace (Rabs (a - b)) with (2 * Rabs ((a - b) / 2)).
  - rewrite (Rabs_right 2) by lra.
    assert (Rabs (cos ((a + b) / 2)) * Rabs (sin ((a - b) / 2))
            <= 1 * Rabs (sin ((a - b) / 2)))
      by (apply Rmult_le_compat_r; assumption).
    lra.
  - unfold Rdiv. rewrite Rabs_mult, (Rabs_right (/ 2)) by lra. field.
Qed.

Lemma np_clip_lipschitz (a b m : R) :
  Rabs (np_clip a (- m) m - np_clip b (- m) m) <= Rabs (a - b).
Proof.
  unfold np_clip, Rmin, Rmax.
  destruct (Rle_dec a (- m)); destruct (Rle_dec b (- m));
    repeat match goal with
           | |- context [Rle_dec ?x ?y] => destruct (Rle_dec x y)
           end;
    unfold Rabs;
    repeat match goal with
           | |- context [Rcase_abs ?x] => destruct (Rcase_abs x)
           end; lra.
Qed.

End Lipschitz.

Lemma sine_step_bound (e : AudioEngine.t) (i : Z) :
  AudioEngine.wave_type e = "sine" ->
  0 <= AudioEngine.frequency e ->
  0 <= AudioEngine.volume e ->
  (0 < ThereminConfig.sample_rate (AudioEngine.config e))%Z ->
  Rabs (AudioEngine.sample_at e (i + 1) - AudioEngine.sample_at e i)
  <= step_bound (ThereminConfig.sample_rate (AudioEngine.config e))
       (AudioEngine.frequency e) (AudioEngine.volume e).
Proof.
  intros Hwt Hf Hv Hsr. apply IZR_lt in Hsr.
  unfold AudioEngine.sample_at, step_bound. rewrite Hwt, (wave_at_kind Sine).
  unfold wave_shape.
  set (sr := IZR (ThereminConfig.sample_rate (AudioEngine.config e))) in *.
  set (f := AudioEngine.frequency e) in *.
  set (v := AudioEngine.volume e) in *.
  set (p := AudioEngine.current_phase e).
  eapply Rle_trans; [apply np_clip_lipschitz |].
  rewrite <- Rmult_minus_distr_r, Rabs_mult, (Rabs_right v) by lra.
  pose proof PI_RGT_0 as Hpi.
  assert (Hstep : 0 <= 2 * PI * f / sr).
  { apply Rmult_le_pos; [nra | left; apply Rinv_0_lt_compat; assumption]. }
  assert (Hd : Rabs (sin (2 * PI * f * (IZR (i + 1) / sr + p))
                     - sin (2 * PI * f * (IZR i / sr + p)))
               <= 2 * PI * f / sr).
  { eapply Rle_trans; [apply sin_lipschitz |].
    replace (2 * PI * f * (IZR (i + 1) / sr + p)
             - 2 * PI * f * (IZR i / sr + p))
      with (2 * PI * f / sr) by (rewrite plus_IZR; field; lra).
    rewrite Rabs_right by lra. lra. }
  replace (2 * PI * f * v / sr) with (2 * PI * f / sr * v) by (field; lra).
  apply Rmult_le_compat_r; assumption.
Qed.

(** X9.  Two consecutive buffers of a sine at one positive frequency: the
    second continues the first, and no two neighbouring samples of the
    concatenation differ by more than the step bound. *)
Lemma constant_frequency_continuity (e : AudioEngine.t) (n1 n2 : Z) :
  AudioEngine.wave_type e = "sine" ->
  0 < AudioEngine.frequency e ->
  0 <= AudioEngine.volume e ->
  (0 < ThereminConfig.sample_rate (AudioEngine.config e))%Z ->
  (0 <= n1)%Z -> (0 <= n2)%Z ->
  exists w1 e1 w2 e2,
    AudioEngine.generate_wave e n1 = Ok (w1, e1)
    /\ AudioEngine.generate_wave e1 n2 = Ok (w2, e2)
    /\ forall i, (0 <= i)%Z -> (i + 1 < n1 + n2)%Z ->
         Rabs (nth (Z.to_nat (i + 1)) (w1 ++ w2) 0
               - nth (Z.to_nat i) (w1 ++ w2) 0)
         <= step_bound (ThereminConfig.sample_rate (AudioEngine.config e))
              (AudioEngine.frequency e) (AudioEngine.volume e).
Proof.
  intros Hwt Hf Hv Hsr H1 H2.
  assert (Hsr' : ThereminConfig.sample_rate (AudioEngine.config e) <> 0%Z)
    by lia.
  eexists; eexists; eexists; eexists.
  split; [apply generate_wave_ok; exact Hsr' |].
  split; [apply generate_wave_ok; exact Hsr' |].
  intros i Hi0 Hi1.
  rewrite (buffers_join e Hsr' n1 n2) by assumption.
  rewrite !samples_nth by lia.
  apply sine_step_bound; [assumption | lra | assumption | assumption].
Qed.

(** * Further properties of the mapping *)

Lemma py_clamp_monotone (lo hi a b : R) :
  a <= b -> py_max lo (py_min hi a) <= py_max lo (py_min hi b).
Proof.
  intros Hab. unfold py_max, py_min.
  destruct (Rlt_dec a hi); destruct (Rlt_dec b hi);
    repeat match goal with
           | |- context [Rlt_dec ?x ?y] => destruct (Rlt_dec x y)
           end; lra.
Qed.

Lemma py_clamp_misordered (lo hi v : R) :
  hi < lo -> py_max lo (py_min hi v) = lo.
Proof.
  intros Hlt. unfold py_max, py_min.
  destruct (Rlt_dec v hi);
    match goal with
    | |- context [Rlt_dec ?x ?y] => destruct (Rlt_dec x y)
    end; lra.
Qed.

Lemma map_zero_height_eq
    (self : CorporalTheremin.t) (left_hand right_hand : option hand_pos) :
  let cfg := CorporalTheremin.config self in
  ThereminConfig.frame_height cfg = 0%Z ->
  CorporalTheremin.map_hand_to_parameters self left_hand right_hand
  = match frequency_hand cfg left_hand right_hand,
          volume_hand cfg left_hand right_hand with
    | None, None => Ok (440, 0)
    | _, _ => Raise ZeroDivisionError
    end.
Proof.
  intros cfg Hh.
  unfold CorporalTheremin.map_hand_to_parameters, frequency_hand, volume_hand,
    int_truediv.
  fold cfg. rewrite Hh. simpl.
  destruct left_hand as [[lx ly] |], right_hand as [[rx ry] |]; simpl;
    destruct (String.eqb_spec (ThereminConfig.left_hand_controls cfg) "volume")
      as [Hlv | Hlv];
    destruct (String.eqb_spec (ThereminConfig.left_hand_controls cfg) "frequency")
      as [Hlf | Hlf];
    destruct (String.eqb_spec (ThereminConfig.right_hand_controls cfg) "volume")
      as [Hrv | Hrv];
    destruct (String.eqb_spec (ThereminConfig.right_hand_controls cfg) "frequency")
      as [Hrf | Hrf];
    simpl; try reflexivity; try congruence;
    destruct (ThereminConfig.volume_range cfg);
    destruct (ThereminConfig.frequency_range cfg); reflexivity.
Qed.

(** X1.  On a frame of height zero the mapping raises [ZeroDivisionError]
    as soon as one present hand is assigned to the volume or to the
    frequency, and returns the fallback (440, 0) otherwise. *)
Theorem mapping_zero_height
    (self : CorporalTheremin.t) (left_hand right_hand : option hand_pos) :
  let cfg := CorporalTheremin.config self in
  ThereminConfig.frame_height cfg = 0%Z ->
  CorporalTheremin.map_hand_to_parameters self left_hand right_hand
  = match frequency_hand cfg left_hand right_hand,
          volume_hand cfg left_hand right_hand with
    | None, None => Ok (440, 0)
    | _, _ => Raise ZeroDivisionError
    end.
Proof. exact (map_zero_height_eq self left_hand right_hand). Qed.

Lemma mapping_zero_height_witness :
  CorporalTheremin.map_hand_to_parameters flat_theremin (Some (10, 0)%Z) None
  = Raise ZeroDivisionError.
Proof.
  apply (mapping_zero_height flat_theremin (Some (10, 0)%Z) None).
  reflexivity.
Defined.

(** X2.  Of two frames, the one whose volume-deciding hand is higher in
    the image (smaller [y]) gets at least as much volume, and the one whose
    frequency-deciding hand is lower (larger [y]) gets at least as high a
    frequency. *)
Theorem mapping_monotone
    (self : CorporalTheremin.t)
    (left_hand right_hand left_hand' right_hand' : option hand_pos) :
  let cfg := CorporalTheremin.config self in
  (0 < ThereminConfig.frame_height cfg)%Z ->
  fst (ThereminConfig.frequency_range cfg)
    <= snd (ThereminConfig.frequency_range cfg) ->
  fst (ThereminConfig.volume_range cfg)
    <= snd (ThereminConfig.volume_range cfg) ->
  exists frequency volume frequency' volume',
    CorporalTheremin.map_hand_to_parameters self left_hand right_hand
    = Ok (frequency, volume)
    /\ CorporalTheremin.map_hand_to_parameters self left_hand' right_hand'
       = Ok (frequency', volume')
    /\ (forall p p',
          volume_hand cfg left_hand right_hand = Some p ->
          volume_hand cfg left_hand' right_hand' = Some p' ->
          (snd p <= snd p')%Z -> volume' <= volume)
    /\ (forall p p',
          frequency_hand cfg left_hand right_hand = Some p ->
          frequency_hand cfg left_hand' right_hand' = Some p' ->
          (snd p <= snd p')%Z -> frequency <= frequency').
Proof.
  intros cfg Hh Hf Hv.
  exists (mapped_frequency cfg left_hand right_hand),
         (mapped_volume cfg left_hand right_hand),
         (mapped_frequency cfg left_hand' right_hand'),
         (mapped_volume cfg left_hand' right_hand').
  split; [apply map_hand_to_parameters_eq; fold cfg; lia |].
  split; [apply map_hand_to_parameters_eq; fold cfg; lia |].
  unfold mapped_frequency, mapped_volume.
  split; intros [x y] [x' y'] -> -> Hy; simpl in Hy;
    pose proof (ratio_monotone y y' _ Hh Hy) as Hr.
  - unfold clamp_volume, lerp_volume, normalized.
    destruct (ThereminConfig.volume_range cfg) as [vol_min vol_max].
    simpl in Hv. apply py_clamp_monotone. nra.
  - unfold lerp_frequency, normalized.
    destruct (ThereminConfig.frequency_range cfg) as [freq_min freq_max].
    simpl in Hf. nra.
Qed.

Lemma mapping_monotone_witness :
  exists frequency volume frequency' volume',
    CorporalTheremin.map_hand_to_parameters default_theremin
      (Some (100, 120)%Z) (Some (500, 200)%Z) = Ok (frequency, volume)
    /\ CorporalTheremin.map_hand_to_parameters default_theremin
         (Some (100, 360)%Z) (Some (500, 300)%Z) = Ok (frequency', volume')
    /\ volume' <= volume /\ frequency <= frequency'.
Proof.
  destruct (mapping_monotone default_theremin
              (Some (100, 120)%Z) (Some (500, 200)%Z)
              (Some (100, 360)%Z) (Some (500, 300)%Z))
    as (f & v & f' & v' & Hmap & Hmap' & Hvol & Hfreq); simpl;
    [lia | lra | lra |].
  exists f, v, f', v'. split; [exact Hmap |]. split; [exact Hmap' |]. split.
  - apply (Hvol (100, 120)%Z (100, 360)%Z); simpl; [reflexivity .. | lia].
  - apply (Hfreq (500, 200)%Z (500, 300)%Z); simpl; [reflexivity .. | lia].
Defined.

(** X3.  The top of the frame gives one end of each range exactly: a
    deciding hand at [y = 0] yields the frequency [freq_min] and, on an
    ordered volume range, the volume [vol_max]. *)
Theorem mapping_top_of_frame
    (self : CorporalTheremin.t) (left_hand right_hand : option hand_pos) :
  let cfg := CorporalTheremin.config self in
  ThereminConfig.frame_height cfg <> 0%Z ->
  fst (ThereminConfig.volume_range cfg)
    <= snd (ThereminConfig.volume_range cfg) ->
  exists frequency volume,
    CorporalTheremin.map_hand_to_parameters self left_hand right_hand
    = Ok (frequency, volume)
    /\ (forall x, frequency_hand cfg left_hand right_hand = Some (x, 0%Z) ->
                  frequency = fst (ThereminConfig.frequency_range cfg))
    /\ (forall x, volume_hand cfg left_hand right_hand = Some (x, 0%Z) ->
                  volume = snd (ThereminConfig.volume_range cfg)).
Proof.
  intros cfg Hh Hv.
  exists (mapped_frequency cfg left_hand right_hand),
         (mapped_volume cfg left_hand right_hand).
  split; [apply map_hand_to_parameters_eq; exact Hh |].
  unfold mapped_frequency, mapped_volume, lerp_frequency, clamp_volume,
    lerp_volume, normalized.
  destruct (ThereminConfig.volume_range cfg) as [vol_min vol_max].
  destruct (ThereminConfig.frequency_range cfg) as [freq_min freq_max].
  simpl in *.
  assert (Hz : 0 / IZR (ThereminConfig.frame_height cfg) = 0)
    by (unfold Rdiv; apply Rmult_0_l).
  split; intros x ->; rewrite Hz, Rmult_0_r.
  - apply Rplus_0_r.
  - rewrite Rminus_0_r. apply py_clamp_id. lra.
Qed.

Lemma mapping_top_of_frame_witness :
  CorporalTheremin.map_hand_to_parameters default_theremin
    (Some (100, 0)%Z) (Some (500, 0)%Z)
  = Ok (200, 1).
Proof.
  destruct (mapping_top_of_frame default_theremin
              (Some (100, 0)%Z) (Some (500, 0)%Z))
    as (f & v & Hmap & Hf & Hv); simpl; [lia | lra |].
  rewrite Hmap.
  rewrite (Hf 500%Z) by reflexivity. rewrite (Hv 100%Z) by reflexivity.
  reflexivity.
Defined.

(** X4.  The volume decided by a hand is clamped wherever the hand is,
    inside the frame or not: on an ordered volume range it lies within the
    range; on a range given upside down it is the constant [vol_min]. *)
Theorem mapping_volume_clamped
    (self : CorporalTheremin.t) (left_hand right_hand : option hand_pos)
    (p : hand_pos) :
  let cfg := CorporalTheremin.config self in
  ThereminConfig.frame_height cfg <> 0%Z ->
  volume_hand cfg left_hand right_hand = Some p ->
  exists frequency volume,
    CorporalTheremin.map_hand_to_parameters self left_hand right_hand
    = Ok (frequency, volume)
    /\ (fst (ThereminConfig.volume_range cfg)
          <= snd (ThereminConfig.volume_range cfg) ->
        in_range volume (ThereminConfig.volume_range cfg))
    /\ (snd (ThereminConfig.volume_range cfg)
          < fst (ThereminConfig.volume_range cfg) ->
        volume = fst (ThereminConfig.volume_range cfg)).
Proof.
  intros cfg Hh Hhand.
  exists (mapped_frequency cfg left_hand right_hand),
         (mapped_volume cfg left_hand right_hand).
  split; [apply map_hand_to_parameters_eq; exact Hh |].
  split.
  - intros Hv. apply (mapped_volume_in_range self _ _ p); assumption.
  - intros Hv. unfold mapped_volume. rewrite Hhand. destruct p as [x y].
    unfold clamp_volume.
    destruct (ThereminConfig.volume_range cfg) as [vol_min vol_max].
    simpl in *. apply py_clamp_misordered. exact Hv.
Qed.

Lemma mapping_volume_clamped_witness :
  exists frequency volume,
    CorporalTheremin.map_hand_to_parameters default_theremin
      (Some (100, -75)%Z) None
    = Ok (frequency, volume)
    /\ in_range volume (0, 1).
Proof.
  destruct (mapping_volume_clamped default_theremin
              (Some (100, -75)%Z) None (100, -75)%Z)
    as (f & v & Hmap & Hin & _); simpl; [lia | reflexivity |].
  exists f, v. split; [exact Hmap |]. apply Hin. simpl. lra.
Defined.

(** * The hand tracker *)

Section Tracker.

Lemma py_int_bounds (u : R) (n : Z) :
  0 <= u <= 1 -> (0 <= n)%Z -> (0 <= py_int (u * IZR n) <= n)%Z.
Proof.
  intros [Hu0 Hu1] Hn. apply IZR_le in Hn.
  assert (H0 : 0 <= u * IZR n) by (apply Rmult_le_pos; assumption).
  assert (H1 : u * IZR n <= IZR n) by nra.
  unfold py_int. destruct (Rlt_dec (u * IZR n) 0) as [Hneg | _]; [lra |].
  destruct (base_Int_part (u * IZR n)) as [Hlo Hhi].
  split.
  - assert (Hlt : (-1 < Int_part (u * IZR n))%Z) by (apply lt_IZR; lra).
    lia.
  - apply le_IZR. lra.
Qed.

Lemma track_hand_config (h : HandTracker.t) (d : (R * R) * string) :
  HandTracker.config (HandTracker.track_hand h d) = HandTracker.config h
  /\ HandTracker.hands_closed (HandTracker.track_hand h d)
     = HandTracker.hands_closed h.
Proof.
  destruct d as [wrist label]. unfold HandTracker.track_hand.
  destruct (label =? "Left"); split; reflexivity.
Qed.

Lemma track_hand_positions (h : HandTracker.t) (d : (R * R) * string) :
  HandTracker.left_hand_pos (HandTracker.track_hand h d)
  = (if snd d =? "Left" then Some (pixel (HandTracker.config h) (fst d))
     else HandTracker.left_hand_pos h)
  /\ HandTracker.right_hand_pos (HandTracker.track_hand h d)
     = (if snd d =? "Left" then HandTracker.right_hand_pos h
        else Some (pixel (HandTracker.config h) (fst d))).
Proof.
  destruct d as [wrist label]. unfold HandTracker.track_hand, pixel. simpl.
  destruct (label =? "Left"); split; reflexivity.
Qed.

Lemma fold_track_hand (ds : list ((R * R) * string)) (h : HandTracker.t) :
  let h' := fold_left HandTracker.track_hand ds h in
  HandTracker.config h' = HandTracker.config h
  /\ HandTracker.hands_closed h' = HandTracker.hands_closed h
  /\ HandTracker.left_hand_pos h'
     = match find is_left (rev ds) with
       | Some d => Some (pixel (HandTracker.config h) (fst d))
       | None => HandTracker.left_hand_pos h
       end
  /\ HandTracker.right_hand_pos h'
     = match find (fun d => negb (is_left d)) (rev ds) with
       | Some d => Some (pixel (HandTracker.config h) (fst d))
       | None => HandTracker.right_hand_pos h
       end.
Proof.
  induction ds as [| d ds IH] using rev_ind; simpl.
  - repeat split; reflexivity.
  - rewrite fold_left_app, rev_app_distr. simpl.
    destruct IH as (Hc & Hcl & Hl & Hr).
    destruct (track_hand_config (fold_left HandTracker.track_hand ds h) d)
      as [Hc' Hcl'].
    split; [congruence |]. split; [congruence |].
    destruct (track_hand_positions (fold_left HandTracker.track_hand ds h) d)
      as [Hl' Hr'].
    rewrite Hl', Hr', Hc. unfold is_left.
    destruct (snd d =? "Left"); simpl; split; try assumption; reflexivity.
Qed.

Lemma process_frame_fold (h : HandTracker.t)
    (results : HandTracker.hands_result) :
  HandTracker.process_frame h results
  = fold_left HandTracker.track_hand (detections results)
      (HandTracker.set_positions h None None).
Proof.
  unfold HandTracker.process_frame, detections.
  destruct (HandTracker.multi_hand_landmarks results) as [[| lm lms] |];
    reflexivity.
Qed.

End Tracker.

Lemma process_frame_positions_eq
    (h : HandTracker.t) (results : HandTracker.hands_result) :
  let h' := HandTracker.process_frame h results in
  HandTracker.config h' = HandTracker.config h
  /\ HandTracker.left_hand_pos h'
     = option_map (fun d => pixel (HandTracker.config h) (fst d))
         (find is_left (rev (detections results)))
  /\ HandTracker.right_hand_pos h'
     = option_map (fun d => pixel (HandTracker.config h) (fst d))
         (find (fun d => negb (is_left d)) (rev (detections results))).
Proof.
  intros h'. unfold h'. rewrite process_frame_fold.
  destruct (fold_track_hand (detections results)
              (HandTracker.set_positions h None None))
    as (Hc & _ & Hl & Hr).
  split; [exact Hc |]. split.
  - rewrite Hl. destruct (find is_left _); reflexivity.
  - rewrite Hr. destruct (find _ _); reflexivity.
Qed.

(** X5.  After [process_frame] the positions depend on that frame alone:
    the left position is the pixel of the last hand labelled "Left", the
    right position the pixel of the last hand with any other label, and a
    side without a hand in the frame is [None] whatever was stored
    before. *)
Theorem process_frame_positions
    (h : HandTracker.t) (results : HandTracker.hands_result) :
  let h' := HandTracker.process_frame h results in
  HandTracker.config h' = HandTracker.config h
  /\ HandTracker.left_hand_pos h'
     = option_map (fun d => pixel (HandTracker.config h) (fst d))
         (find is_left (rev (detections results)))
  /\ HandTracker.right_hand_pos h'
     = option_map (fun d => pixel (HandTracker.config h) (fst d))
         (find (fun d => negb (is_left d)) (rev (detections results))).
Proof. exact (process_frame_positions_eq h results). Qed.

Lemma process_frame_bounds
    (h : HandTracker.t) (results : HandTracker.hands_result) :
  let cfg := HandTracker.config h in
  (0 <= ThereminConfig.frame_width cfg)%Z ->
  (0 <= ThereminConfig.frame_height cfg)%Z ->
  wrists_in_frame results ->
  let h' := HandTracker.process_frame h results in
  in_frame (ThereminConfig.frame_width cfg) (ThereminConfig.frame_height cfg)
    (HandTracker.left_hand_pos h')
  /\ in_frame (ThereminConfig.frame_width cfg) (ThereminConfig.frame_height cfg)
       (HandTracker.right_hand_pos h').
Proof.
  intros cfg Hw Hh Hin h'.
  destruct (process_frame_positions_eq h results) as (_ & Hl & Hr).
  fold h' in Hl, Hr. fold cfg in Hl, Hr.
  assert (Hd : forall d, In d (rev (detections results)) ->
                 0 <= fst (fst d) <= 1 /\ 0 <= snd (fst d) <= 1).
  { intros [w label] Hd. apply in_rev in Hd. simpl.
    unfold detections in Hd.
    destruct (HandTracker.multi_hand_landmarks results) as [lms |] eqn:E;
      [| contradiction].
    apply in_combine_l in Hd.
    pose proof (Hin lms E) as Hall.
    rewrite Forall_forall in Hall. apply (Hall w Hd). }
  assert (Hpix : forall d, In d (rev (detections results)) ->
                   forall x y, pixel cfg (fst d) = (x, y) ->
                   (0 <= x <= ThereminConfig.frame_width cfg)%Z
                   /\ (0 <= y <= ThereminConfig.frame_height cfg)%Z).
  { intros d Hd' x y Hxy. destruct (Hd d Hd') as [Hx Hy].
    unfold pixel in Hxy. injection Hxy as <- <-.
    split; apply py_int_bounds; assumption. }
  split; intros x y Hpos.
  - rewrite Hl in Hpos.
    destruct (find is_left (rev (detections results))) as [d |] eqn:E;
      [| discriminate].
    apply find_some in E. destruct E as [Hd' _].
    apply (Hpix d Hd' x y). simpl in Hpos. congruence.
  - rewrite Hr in Hpos.
    destruct (find (fun d => negb (is_left d)) (rev (detections results)))
      as [d |] eqn:E; [| discriminate].
    apply find_some in E. destruct E as [Hd' _].
    apply (Hpix d Hd' x y). simpl in Hpos. congruence.
Qed.

(** X6.  When every wrist of the frame has normalised coordinates in
    [0, 1] and the frame dimensions are not negative, the positions the
    tracker stores lie within the frame: [0 <= x <= frame_width] and
    [0 <= y <= frame_height]. *)
Theorem process_frame_in_frame
    (h : HandTracker.t) (results : HandTracker.hands_result) :
  let cfg := HandTracker.config h in
  (0 <= ThereminConfig.frame_width cfg)%Z ->
  (0 <= ThereminConfig.frame_height cfg)%Z ->
  wrists_in_frame results ->
  let h' := HandTracker.process_frame h results in
  in_frame (ThereminConfig.frame_width cfg) (ThereminConfig.frame_height cfg)
    (HandTracker.left_hand_pos h')
  /\ in_frame (ThereminConfig.frame_width cfg) (ThereminConfig.frame_height cfg)
       (HandTracker.right_hand_pos h').
Proof. exact (process_frame_bounds h results). Qed.

Lemma process_frame_in_frame_witness :
  in_frame 640 480
    (HandTracker.left_hand_pos
       (HandTracker.process_frame (HandTracker.init ThereminConfig.default)
          one_left_hand))
  /\ in_frame 640 480
       (HandTracker.right_hand_pos
          (HandTracker.process_frame (HandTracker.init ThereminConfig.default)
             one_left_hand)).
Proof.
  apply (process_frame_in_frame (HandTracker.init ThereminConfig.default)
           one_left_hand); simpl.
  - lia.
  - lia.
  - intros lms H. injection H as <-.
    constructor; [simpl; lra | constructor].
Defined.

(** * Further properties of the audio engine *)

Section EngineBuffers.

Lemma np_sign_bound (x : R) : Rabs (np_sign x) <= 1.
Proof.
  unfold np_sign.
  destruct (Rlt_dec x 0); [| destruct (Rlt_dec 0 x)];
    apply Rabs_le; lra.
Qed.

Lemma wave_at_bound (wt : string) (freq t_global : R) :
  Rabs (AudioEngine.wave_at wt freq t_global) <= 1.
Proof.
  assert (Hsin : Rabs (sin (2 * PI * freq * t_global)) <= 1).
  { apply Rabs_le. pose proof (SIN_bound (2 * PI * freq * t_global)). lra. }
  unfold AudioEngine.wave_at.
  destruct (wt =? "sine"); [exact Hsin |].
  destruct (wt =? "square"); [apply np_sign_bound |].
  destruct (wt =? "sawtooth").
  - pose proof (floor_bounds (1 / 2 + t_global * freq)).
    apply Rabs_le. lra.
  - destruct (wt =? "triangle"); [| exact Hsin].
    pose proof (floor_bounds (t_global * freq + 1 / 2)).
    apply Rabs_le. unfold Rabs.
    destruct (Rcase_abs _); lra.
Qed.

End EngineBuffers.

(** X7.  Whatever state the engine is in, a call of [audio_callback] with
    a non-negative frame count on a non-zero sample rate hands PortAudio
    exactly [frame_count] samples, each of magnitude at most 0.9, and
    changes nothing in the engine but the phase. *)
Theorem audio_callback_buffer (e : AudioEngine.t) (frame_count : Z) :
  (0 <= frame_count)%Z ->
  ThereminConfig.sample_rate (AudioEngine.config e) <> 0%Z ->
  exists data e',
    AudioEngine.audio_callback e frame_count = Ok (data, e')
    /\ List.length data = Z.to_nat frame_count
    /\ Forall (fun s => Rabs s <= 9 / 10) data
    /\ e' = AudioEngine.set_current_phase e (AudioEngine.current_phase e').
Proof.
  intros Hn Hsr. unfold AudioEngine.audio_callback.
  destruct (negb (AudioEngine.is_playing e) || _).
  - unfold AudioEngine.np_zeros.
    destruct (Z.ltb_spec frame_count 0) as [Hneg | _]; [lia |].
    simpl. eexists; eexists. split; [reflexivity |].
    split; [apply repeat_length |]. split.
    + apply Forall_forall. intros s Hs. apply repeat_spec in Hs. subst s.
      rewrite Rabs_R0. lra.
    + destruct e. reflexivity.
  - rewrite generate_wave_ok by exact Hsr.
    eexists; eexists. split; [reflexivity |].
    split; [rewrite length_map; apply np_arange_length |]. split.
    + apply Forall_forall. intros s Hs.
      apply in_map_iff in Hs. destruct Hs as (i & <- & _).
      apply sample_at_bound.
    + reflexivity.
Qed.

Lemma audio_callback_buffer_witness :
  exists data e',
    AudioEngine.audio_callback playing_engine 256 = Ok (data, e')
    /\ List.length data = 256%nat
    /\ Forall (fun s => Rabs s <= 9 / 10) data
    /\ e' = AudioEngine.set_current_phase playing_engine
              (AudioEngine.current_phase e').
Proof.
  apply (audio_callback_buffer playing_engine 256); simpl; lia.
Defined.

Lemma constant_frequency_continuity_witness :
  exists w1 e1 w2 e2,
    AudioEngine.generate_wave playing_engine 256 = Ok (w1, e1)
    /\ AudioEngine.generate_wave e1 256 = Ok (w2, e2)
    /\ forall i, (0 <= i)%Z -> (i + 1 < 256 + 256)%Z ->
         Rabs (nth (Z.to_nat (i + 1)) (w1 ++ w2) 0
               - nth (Z.to_nat i) (w1 ++ w2) 0)
         <= step_bound 44100 225 (1 / 2).
Proof.
  apply (constant_frequency_continuity playing_engine 256 256); simpl;
    try reflexivity; try lia; lra.
Defined.

(** X10.  Every waveform stays within [-1, 1], so with a volume between 0
    and 0.9 the clip is the identity: each sample of the buffer is the
    waveform times the volume, undistorted. *)
Theorem no_clipping_below_margin (e : AudioEngine.t) (num_samples : Z) :
  let sr := ThereminConfig.sample_rate (AudioEngine.config e) in
  sr <> 0%Z ->
  0 <= AudioEngine.volume e <= 9 / 10 ->
  exists wave e',
    AudioEngine.generate_wave e num_samples = Ok (wave, e')
    /\ wave
       = map (fun i =>
                AudioEngine.wave_at (AudioEngine.wave_type e)
                  (AudioEngine.frequency e)
                  (IZR i / IZR sr + AudioEngine.current_phase e)
                * AudioEngine.volume e)
             (np_arange num_samples)
    /\ forall wt freq t_global,
         Rabs (AudioEngine.wave_at wt freq t_global) <= 1.
Proof.
  intros sr Hsr [Hv0 Hv1].
  eexists; eexists. split; [apply generate_wave_ok; exact Hsr |].
  split; [| apply wave_at_bound].
  apply map_ext. intros i. unfold AudioEngine.sample_at. fold sr.
  apply np_clip_id.
  pose proof (wave_at_bound (AudioEngine.wave_type e) (AudioEngine.frequency e)
                (IZR i / IZR sr + AudioEngine.current_phase e)) as Hw.
  unfold Rabs in Hw. destruct (Rcase_abs _) in Hw; split; nra.
Qed.

Lemma no_clipping_below_margin_witness :
  exists wave e',
    AudioEngine.generate_wave playing_engine 2 = Ok (wave, e')
    /\ wave
       = [ AudioEngine.wave_at "sine" 225 (0 / 44100 + 0) * (1 / 2);
           AudioEngine.wave_at "sine" 225 (1 / 44100 + 0) * (1 / 2) ].
Proof.
  destruct (no_clipping_below_margin playing_engine 2)
    as (wave & e' & Hgen & Hwave & _); simpl; [lia | lra |].
  exists wave, e'. split; [exact Hgen | exact Hwave].
Defined.

Section EngineCalls.

Lemma str_in_valid (w : string) :
  str_in w ["sine"; "square"; "sawtooth"; "triangle"] = true ->
  valid_wave_type w.
Proof.
  unfold str_in, valid_wave_type. intros H.
  apply existsb_exists in H. destruct H as (x & Hx & Heq).
  apply String.eqb_eq in Heq. subst x. exact Hx.
Qed.

Lemma do_call_inv (e0 e : AudioEngine.t) (c : engine_call) :
  engine_inv e0 e -> engine_inv e0 (do_call e c).
Proof.
  intros (Hc & Hw & Hp & Ht & Hs). unfold engine_inv.
  assert (Hsome : forall s : AudioEngine.stream_t,
             AudioEngine.stream e <> None ->
             (Some s = None <-> AudioEngine.stream e0 = None)).
  { intros s Hne. split; intros H; [discriminate H |].
    apply Hs in H. contradiction. }
  destruct c as [f v | w | | | n]; simpl.
  - repeat split; try assumption; apply Hs.
  - unfold AudioEngine.set_wave_type.
    destruct (str_in w _) eqn:E; simpl.
    + repeat split; try assumption; try apply Hs. apply str_in_valid. exact E.
    + repeat split; try assumption; apply Hs.
  - unfold AudioEngine.start.
    destruct (AudioEngine.stream e) as [s |] eqn:E;
      [destruct (negb (AudioEngine.is_playing e)) |]; simpl;
      rewrite ?E; (split; [assumption |]); (split; [assumption |]);
      (split; [assumption |]); (split; [assumption |]);
      try exact Hs; apply Hsome; discriminate.
  - unfold AudioEngine.stop.
    destruct (AudioEngine.stream e) as [s |] eqn:E;
      [destruct (AudioEngine.is_playing e) |]; simpl;
      rewrite ?E; (split; [assumption |]); (split; [assumption |]);
      (split; [assumption |]); (split; [assumption |]);
      try exact Hs; apply Hsome; discriminate.
  - unfold AudioEngine.audio_callback.
    destruct (negb (AudioEngine.is_playing e) || _).
    + unfold AudioEngine.np_zeros. destruct (n <? 0)%Z; simpl;
        repeat split; try assumption; apply Hs.
    + unfold AudioEngine.generate_wave, int_truediv.
      destruct (ThereminConfig.sample_rate (AudioEngine.config e) =? 0)%Z;
        simpl; repeat split; try assumption; try apply Hs.
      apply py_fmod_range. apply period_pos.
Qed.

Lemma run_calls_inv (calls : list engine_call) (e0 e : AudioEngine.t) :
  engine_inv e0 e -> engine_inv e0 (run_calls calls e).
Proof.
  revert e. induction calls as [| c calls IH]; intros e Hinv; simpl.
  - exact Hinv.
  - apply IH. apply do_call_inv. exact Hinv.
Qed.

End EngineCalls.

(** X11.  Through any sequence of calls on the engine (parameter updates,
    wave-type changes with arbitrary strings, start, stop, audio
    callbacks), an engine whose wave type is one of the four kinds and
    whose phase is not negative keeps both properties, keeps its
    configuration, and is never terminated nor given or deprived of a
    stream. *)
Theorem engine_calls_invariant (calls : list engine_call) (e : AudioEngine.t) :
  valid_wave_type (AudioEngine.wave_type e) ->
  0 <= AudioEngine.current_phase e ->
  let e' := run_calls calls e in
  AudioEngine.config e' = AudioEngine.config e
  /\ valid_wave_type (AudioEngine.wave_type e')
  /\ 0 <= AudioEngine.current_phase e'
  /\ AudioEngine.audio_terminated e' = AudioEngine.audio_terminated e
  /\ (AudioEngine.stream e' = None <-> AudioEngine.stream e = None).
Proof.
  intros Hw Hp. apply (run_calls_inv calls e e).
  unfold engine_inv. repeat split; try assumption; auto.
Qed.

Lemma engine_calls_invariant_witness :
  let e' :=
    run_calls [CallStart; CallUpdateParameters 225 (1 / 2);
               CallSetWaveType "noise"; CallAudioCallback 256;
               CallSetWaveType "square"; CallStop]
      (AudioEngine.init ThereminConfig.default) in
  AudioEngine.config e' = ThereminConfig.default
  /\ valid_wave_type (AudioEngine.wave_type e')
  /\ 0 <= AudioEngine.current_phase e'.
Proof.
  intros e'.
  destruct (engine_calls_invariant
              [CallStart; CallUpdateParameters 225 (1 / 2);
               CallSetWaveType "noise"; CallAudioCallback 256;
               CallSetWaveType "square"; CallStop]
              (AudioEngine.init ThereminConfig.default))
    as (Hc & Hw & Hp & _).
  - left. reflexivity.
  - simpl. lra.
  - split; [exact Hc |]. split; [exact Hw | exact Hp].
Defined.

(** * The theremin: construction, start and the processing loop *)

Section Processing.

Lemma silent_callback (e : AudioEngine.t) (frame_count : Z) :
  (0 <= frame_count)%Z ->
  AudioEngine.volume e < 1 / 100 ->
  AudioEngine.audio_callback e frame_count
  = Ok (repeat 0 (Z.to_nat frame_count), e).
Proof.
  intros Hn Hv. unfold AudioEngine.audio_callback, AudioEngine.np_zeros.
  destruct (Rlt_dec (AudioEngine.volume e) (1 / 100)); [| contradiction].
  rewrite orb_true_r.
  destruct (Z.ltb_spec frame_count 0); [lia | reflexivity].
Qed.

Lemma map_config_only (s s' : CorporalTheremin.t)
    (left_hand right_hand : option hand_pos) :
  CorporalTheremin.config s = CorporalTheremin.config s' ->
  CorporalTheremin.map_hand_to_parameters s left_hand right_hand
  = CorporalTheremin.map_hand_to_parameters s' left_hand right_hand.
Proof.
  intros Hc. unfold CorporalTheremin.map_hand_to_parameters.
  rewrite Hc. reflexivity.
Qed.

(** One pass on a frame, on an object whose components exist. *)
Lemma iteration_body_frame
    (s : CorporalTheremin.t) (results : HandTracker.hands_result)
    (c : Camera.t) (h : HandTracker.t) (e : AudioEngine.t) :
  CorporalTheremin.camera s = Some c ->
  CorporalTheremin.hand_tracker s = Some h ->
  CorporalTheremin.audio_engine s = Some e ->
  let h' := HandTracker.process_frame h results in
  let s1 := CorporalTheremin.set_hand_tracker (Some h') s in
  CorporalTheremin.iteration_body (CorporalTheremin.ReadFrame results) s
  = match CorporalTheremin.map_hand_to_parameters s
            (HandTracker.left_hand_pos h') (HandTracker.right_hand_pos h') with
    | Ok (frequency, volume) =>
        (CorporalTheremin.set_audio_engine
           (Some (AudioEngine.update_parameters e frequency volume)) s1,
         Ok true)
    | Raise ex => (s1, Raise ex)
    end.
Proof.
  intros Hc Hh He h' s1.
  unfold CorporalTheremin.iteration_body.
  cbv [CorporalTheremin.bind CorporalTheremin.get]. rewrite Hc, Hh.
  cbv [CorporalTheremin.bind CorporalTheremin.get CorporalTheremin.modify
       CorporalTheremin.ret CorporalTheremin.raise
       CorporalTheremin.mapping_step HandTracker.get_hand_positions].
  cbv beta iota. fold h'. fold s1.
  rewrite (map_config_only s1 s) by reflexivity.
  destruct (CorporalTheremin.map_hand_to_parameters s _ _) as [[f v] | ex];
    [| reflexivity].
  replace (CorporalTheremin.audio_engine s1) with (Some e)
    by (symmetry; exact He).
  reflexivity.
Qed.

End Processing.

(** X12.  When every external constructor succeeds, the constructor
    returns a theremin with its three components, not running; once
    started it is running and its engine playing, yet every audio callback
    returns silence, since the initial volume is zero, until a mapping
    step writes a volume. *)
Theorem new_theremin_is_silent (cfg : ThereminConfig.t) (env : setup_env)
    (opened : bool) :
  video_capture env = Ok opened ->
  mp_hands env = None -> pyaudio_new env = None -> pyaudio_open env = None ->
  exists s s' e',
    CorporalTheremin.new cfg env = (s, Ok tt)
    /\ ready s
    /\ CorporalTheremin.is_running s = false
    /\ CorporalTheremin.start s = (s', Ok tt)
    /\ CorporalTheremin.is_running s' = true
    /\ CorporalTheremin.audio_engine s' = Some e'
    /\ AudioEngine.is_playing e' = true
    /\ forall frame_count, (0 <= frame_count)%Z ->
         AudioEngine.audio_callback e' frame_count
         = Ok (repeat 0 (Z.to_nat frame_count), e').
Proof.
  intros Hv Hm Hn Ho.
  unfold CorporalTheremin.new, CorporalTheremin.setup,
    CorporalTheremin.try_except, CorporalTheremin.open_camera,
    CorporalTheremin.new_hand_tracker, CorporalTheremin.new_audio_engine.
  rewrite Hv, Hm, Hn, Ho. simpl.
  eexists; eexists; eexists.
  split; [reflexivity |]. split.
  { unfold ready. simpl. repeat split; eexists; try split; reflexivity. }
  split; [reflexivity |].
  split; [reflexivity |].
  split; [reflexivity |].
  split; [reflexivity |].
  split; [reflexivity |].
  intros n Hn0. apply silent_callback; [exact Hn0 | simpl; lra].
Qed.

Lemma new_theremin_is_silent_witness :
  exists s s' e',
    CorporalTheremin.new ThereminConfig.default all_available = (s, Ok tt)
    /\ CorporalTheremin.start s = (s', Ok tt)
    /\ CorporalTheremin.audio_engine s' = Some e'
    /\ AudioEngine.audio_callback e' 4 = Ok ([0; 0; 0; 0], e').
Proof.
  destruct (new_theremin_is_silent ThereminConfig.default all_available true)
    as (s & s' & e' & Hnew & _ & _ & Hstart & _ & He & _ & Hsilent);
    try reflexivity.
  exists s, s', e'. split; [exact Hnew |]. split; [exact Hstart |].
  split; [exact He |]. apply (Hsilent 4%Z). lia.
Defined.



Section Loop.

Lemma iteration_keeps (rd : CorporalTheremin.camera_read)
    (s s' : CorporalTheremin.t) (sig : CorporalTheremin.loop_signal) :
  CorporalTheremin.processing_iteration rd s = (s', sig) ->
  CorporalTheremin.camera s' = CorporalTheremin.camera s
  /\ CorporalTheremin.is_running s' = CorporalTheremin.is_running s
  /\ CorporalTheremin.config s' = CorporalTheremin.config s.
Proof.
  unfold CorporalTheremin.processing_iteration, CorporalTheremin.iteration_body.
  cbv [CorporalTheremin.bind CorporalTheremin.get].
  destruct (CorporalTheremin.camera s) as [c |] eqn:Hc;
    [| intros H; inversion H; subst; auto].
  destruct rd as [| results]; [intros H; inversion H; subst; auto |].
  destruct (CorporalTheremin.hand_tracker s) as [h |] eqn:Hh;
    [| intros H; inversion H; subst; auto].
  cbv [CorporalTheremin.bind CorporalTheremin.get CorporalTheremin.modify
       CorporalTheremin.ret CorporalTheremin.raise
       CorporalTheremin.mapping_step HandTracker.get_hand_positions].
  cbv beta iota.
  destruct (CorporalTheremin.map_hand_to_parameters _ _ _) as [[f v] | ex].
  - destruct (CorporalTheremin.audio_engine _) as [e |];
      intros H; inversion H; subst; simpl; auto.
  - intros H; inversion H; subst; simpl; auto.
Qed.

Lemma loop_not_running (reads : list CorporalTheremin.camera_read)
    (s : CorporalTheremin.t) :
  CorporalTheremin.is_running s = false ->
  CorporalTheremin.processing_loop reads s = s.
Proof.
  intros Hr. destruct reads as [| rd rest]; simpl; [| rewrite Hr]; reflexivity.
Qed.

Lemma iteration_read_failed (s : CorporalTheremin.t) :
  CorporalTheremin.camera s <> None ->
  CorporalTheremin.processing_iteration CorporalTheremin.ReadFailed s
  = (s, CorporalTheremin.Continue).
Proof.
  intros Hc. unfold CorporalTheremin.processing_iteration,
    CorporalTheremin.iteration_body.
  cbv [CorporalTheremin.bind CorporalTheremin.get].
  destruct (CorporalTheremin.camera s); [reflexivity | contradiction].
Qed.

End Loop.

(** X14.  Failed camera reads are skipped without a trace: on an object
    that has a camera, the loop ends in the same state as if only the
    frames actually read had been delivered. *)
Theorem failed_reads_are_skipped
    (reads : list CorporalTheremin.camera_read) (s : CorporalTheremin.t) :
  CorporalTheremin.camera s <> None ->
  CorporalTheremin.processing_loop reads s
  = CorporalTheremin.processing_loop (filter is_frame reads) s.
Proof.
  revert s. induction reads as [| rd rest IH]; intros s Hc; [reflexivity |].
  destruct (CorporalTheremin.is_running s) eqn:Hr.
  - destruct rd as [| results]; simpl; rewrite Hr.
    + rewrite (iteration_read_failed s Hc). apply IH. exact Hc.
    + destruct (CorporalTheremin.processing_iteration
                  (CorporalTheremin.ReadFrame results) s) as [s' sig] eqn:E.
      destruct sig; [| reflexivity].
      apply IH. destruct (iteration_keeps _ _ _ _ E) as (Hc' & _).
      rewrite Hc'. exact Hc.
  - rewrite !loop_not_running by exact Hr. reflexivity.
Qed.

Lemma failed_reads_are_skipped_witness :
  CorporalTheremin.is_running running_theremin = true
  /\ CorporalTheremin.processing_loop
       [CorporalTheremin.ReadFailed;
        CorporalTheremin.ReadFrame one_left_hand;
        CorporalTheremin.ReadFailed]
       running_theremin
     = CorporalTheremin.processing_loop
         [CorporalTheremin.ReadFrame one_left_hand] running_theremin.
Proof.
  split; [reflexivity |].
  apply (failed_reads_are_skipped
           [CorporalTheremin.ReadFailed;
            CorporalTheremin.ReadFrame one_left_hand;
            CorporalTheremin.ReadFailed] running_theremin).
  discriminate.
Defined.

Lemma iteration_in_range_aux
    (s : CorporalTheremin.t) (results : HandTracker.hands_result) :
  let cfg := CorporalTheremin.config s in
  ready s ->
  (0 <= ThereminConfig.frame_width cfg)%Z ->
  (0 < ThereminConfig.frame_height cfg)%Z ->
  fst (ThereminConfig.frequency_range cfg)
    <= snd (ThereminConfig.frequency_range cfg) ->
  fst (ThereminConfig.volume_range cfg)
    <= snd (ThereminConfig.volume_range cfg) ->
  wrists_in_frame results ->
  exists s' e',
    CorporalTheremin.processing_iteration
      (CorporalTheremin.ReadFrame results) s
    = (s', CorporalTheremin.Continue)
    /\ CorporalTheremin.audio_engine s' = Some e'
    /\ parameters_ok cfg e'
    /\ ready s'.
Proof.
  intros cfg ((c & Hc) & (h & Hh & Hcfg) & (e & He)) Hw Hht Hf Hv Hin.
  set (h' := HandTracker.process_frame h results).
  set (l := HandTracker.left_hand_pos h').
  set (r := HandTracker.right_hand_pos h').
  destruct (process_frame_bounds h results) as [Hl Hr];
    try (rewrite Hcfg; fold cfg; lia); try assumption.
  rewrite Hcfg in Hl, Hr. fold cfg h' in Hl, Hr. fold l in Hl. fold r in Hr.
  eexists; eexists. split.
  { unfold CorporalTheremin.processing_iteration.
    rewrite (iteration_body_frame s results c h e Hc Hh He).
    fold h' l r.
    rewrite map_hand_to_parameters_eq by (fold cfg; lia). reflexivity. }
  split; [reflexivity |]. split.
  - unfold parameters_ok. simpl. fold cfg. split.
    + destruct (frequency_hand cfg l r) as [[x y] |] eqn:E.
      * left. apply (mapped_frequency_bounded s l r x y); try assumption.
        destruct (frequency_hand_is_present s _ _ _ E) as [H | H];
          [apply (Hl x y H) | apply (Hr x y H)].
      * right. unfold mapped_frequency. rewrite E. reflexivity.
    + destruct (volume_hand cfg l r) as [p |] eqn:E.
      * left. apply (mapped_volume_in_range s l r p); assumption.
      * right. unfold mapped_volume. rewrite E. reflexivity.
  - unfold ready. simpl. split; [exists c; exact Hc |]. split.
    + exists h'. split; [reflexivity |].
      destruct (process_frame_positions_eq h results) as (Hcfg' & _).
      fold h' in Hcfg'. rewrite Hcfg'. exact Hcfg.
    + eexists. reflexivity.
Qed.

(** X15.  End to end, from the wrists of a frame to the engine: on a
    well-formed configuration shared by the tracker, a frame whose wrists
    lie inside the image always completes the pass; the volume written
    into the engine lies in the volume range or is the fallback 0, and the
    frequency is the fallback 440 or lies between [freq_min] and the value
    of the interpolation at the bottom edge of the frame, which is
    [freq_max] only up to rounding. *)
Theorem processing_iteration_in_range
    (s : CorporalTheremin.t) (results : HandTracker.hands_result) :
  let cfg := CorporalTheremin.config s in
  ready s ->
  (0 <= ThereminConfig.frame_width cfg)%Z ->
  (0 < ThereminConfig.frame_height cfg)%Z ->
  fst (ThereminConfig.frequency_range cfg)
    <= snd (ThereminConfig.frequency_range cfg) ->
  fst (ThereminConfig.volume_range cfg)
    <= snd (ThereminConfig.volume_range cfg) ->
  wrists_in_frame results ->
  exists s' e',
    CorporalTheremin.processing_iteration
      (CorporalTheremin.ReadFrame results) s
    = (s', CorporalTheremin.Continue)
    /\ CorporalTheremin.audio_engine s' = Some e'
    /\ (fst (ThereminConfig.frequency_range cfg) <= AudioEngine.frequency e'
        <= frequency_ceiling cfg
        \/ AudioEngine.frequency e' = 440)
    /\ (in_range (AudioEngine.volume e') (ThereminConfig.volume_range cfg)
        \/ AudioEngine.volume e' = 0).
Proof.
  intros cfg Hready Hw Hh Hf Hv Hin.
  destruct (iteration_in_range_aux s results Hready Hw Hh Hf Hv Hin)
    as (s' & e' & Hit & He & [Hfreq Hvol] & _).
  exists s', e'. repeat split; assumption.
Qed.

Lemma processing_iteration_in_range_witness :
  exists s' e',
    CorporalTheremin.processing_iteration
      (CorporalTheremin.ReadFrame one_left_hand) default_theremin
    = (s', CorporalTheremin.Continue)
    /\ CorporalTheremin.audio_engine s' = Some e'
    /\ (200 <= AudioEngine.frequency e'
        <= frequency_ceiling ThereminConfig.default
        \/ AudioEngine.frequency e' = 440)
    /\ (in_range (AudioEngine.volume e') (0, 1)
        \/ AudioEngine.volume e' = 0).
Proof.
  apply (processing_iteration_in_range default_theremin one_left_hand);
    simpl; try lia; try lra.
  - unfold ready, default_theremin. simpl.
    repeat split; eexists; try split; reflexivity.
  - intros lms H. injection H as <-.
    constructor; [simpl; lra | constructor].
Defined.

Section ZeroHeight.



End ZeroHeight.



(** X17.  The flags of [start] and [stop], on a theremin whose engine has
    its stream: [start] on a running theremin does nothing; on an idle one
    it raises the run flag and leaves the engine playing; [stop], in any
    state, lowers the run flag and leaves the engine not playing, and a
    second [stop] changes nothing.  What the processing thread writes
    between the two calls is no part of this statement. *)
Theorem start_stop_flags
    (s : CorporalTheremin.t) (e : AudioEngine.t) (st : AudioEngine.stream_t) :
  CorporalTheremin.audio_engine s = Some e ->
  AudioEngine.stream e = Some st ->
  (CorporalTheremin.is_running s = true ->
   CorporalTheremin.start s = (s, Ok tt))
  /\ (CorporalTheremin.is_running s = false ->
      exists s1 e1,
        CorporalTheremin.start s = (s1, Ok tt)
        /\ CorporalTheremin.is_running s1 = true
        /\ CorporalTheremin.audio_engine s1 = Some e1
        /\ AudioEngine.is_playing e1 = true)
  /\ (exists s2 e2,
        CorporalTheremin.stop s = (s2, Ok tt)
        /\ CorporalTheremin.is_running s2 = false
        /\ CorporalTheremin.audio_engine s2 = Some e2
        /\ AudioEngine.is_playing e2 = false
        /\ CorporalTheremin.stop s2 = (s2, Ok tt)).
Proof.
  intros He Hst.
  destruct s as [cfg ae ht cam run th]. simpl in He. subst ae.
  destruct e as [ecfg term str playing phase freq vol wt].
  simpl in Hst. subst str. destruct st as [act cl].
  split; [| split].
  - simpl. intros ->. reflexivity.
  - simpl. intros ->. destruct playing;
      (eexists; eexists; repeat split; reflexivity).
  - destruct playing; (eexists; eexists; repeat split; reflexivity).
Qed.

Lemma start_stop_flags_witness :
  (exists s1 e1,
      CorporalTheremin.start default_theremin = (s1, Ok tt)
      /\ CorporalTheremin.is_running s1 = true
      /\ CorporalTheremin.audio_engine s1 = Some e1
      /\ AudioEngine.is_playing e1 = true)
  /\ CorporalTheremin.start running_theremin = (running_theremin, Ok tt).
Proof.
  pose proof (start_stop_flags default_theremin
                (AudioEngine.init ThereminConfig.default)
                (AudioEngine.mk_stream false false) eq_refl eq_refl)
    as (_ & Hstart & _).
  pose proof (start_stop_flags running_theremin
                (AudioEngine.init ThereminConfig.default)
                (AudioEngine.mk_stream false false) eq_refl eq_refl)
    as (Hrun & _).
  split; [exact (Hstart eq_refl) | exact (Hrun eq_refl)].
Defined.

(** * The HTTP control surface *)


(** X18.  When the construction of the theremin fails, the API object is
    still built, with no theremin; from then on start, stop and the
    wave-type change answer [False] and change nothing, and the wave-type
    route, given a valid kind, answers with [success = False] next to the
    message "Onda cambiada a <kind>". *)
Theorem failed_setup_disables_api
    (env : setup_env) (s : CorporalTheremin.t) (ex : exn) :
  CorporalTheremin.new ThereminConfig.default env = (s, Raise ex) ->
  let api := ThereminAPI.new env in
  ThereminAPI.theremin api = None
  /\ ThereminAPI.start api = (api, Ok false)
  /\ ThereminAPI.stop api = (api, Ok false)
  /\ ThereminAPI.start_route api
     = (api, Ok (ThereminAPI.mk_response false "Error al iniciar"))
  /\ ThereminAPI.stop_route api
     = (api, Ok (ThereminAPI.mk_response false "Error al detener"))
  /\ (forall w, ThereminAPI.update_wave_type api w = (api, Ok false))
  /\ (forall k,
        ThereminAPI.update_wave_type_route api (Some (kind_name k))
        = (api, Ok (ThereminAPI.mk_response false
                      ("Onda cambiada a " ++ kind_name k)))).
Proof.
  intros Hnew api. unfold api, ThereminAPI.new. rewrite Hnew.
  repeat split; try reflexivity.
  intros k. destruct k; reflexivity.
Qed.

Lemma failed_setup_disables_api_witness :
  ThereminAPI.theremin (ThereminAPI.new audio_unavailable) = None
  /\ ThereminAPI.start_route (ThereminAPI.new audio_unavailable)
     = (ThereminAPI.new audio_unavailable,
        Ok (ThereminAPI.mk_response false "Error al iniciar")).
Proof.
  destruct (failed_setup_disables_api audio_unavailable
              (CorporalTheremin.mk ThereminConfig.default None
                 (Some (HandTracker.mk ThereminConfig.default false None None))
                 (Some (Camera.mk true false)) false None)
              AttributeError)
    as (Hnone & _ & _ & Hroute & _).
  - reflexivity.
  - split; [exact Hnone | exact Hroute].
Defined.



(** * Shutdown and the loop invariant *)

(** X20.  On a theremin whose engine has its stream, [cleanup] returns
    normally and leaves nothing held: the run flag is down, the engine is
    not playing, its stream is closed (and stopped if it was playing),
    PyAudio is terminated, the hand tracker (if any) is closed and the
    camera (if any) is not open. *)
Theorem cleanup_releases_everything
    (s : CorporalTheremin.t) (e : AudioEngine.t) (st : AudioEngine.stream_t) :
  CorporalTheremin.audio_engine s = Some e ->
  AudioEngine.stream e = Some st ->
  exists s' e' st',
    CorporalTheremin.cleanup s = (s', Ok tt)
    /\ CorporalTheremin.is_running s' = false
    /\ CorporalTheremin.audio_engine s' = Some e'
    /\ AudioEngine.is_playing e' = false
    /\ AudioEngine.audio_terminated e' = true
    /\ AudioEngine.stream e' = Some st'
    /\ AudioEngine.closed st' = true
    /\ (AudioEngine.is_playing e = true -> AudioEngine.active st' = false)
    /\ (forall h, CorporalTheremin.hand_tracker s' = Some h ->
                  HandTracker.hands_closed h = true)
    /\ (forall c, CorporalTheremin.camera s' = Some c ->
                  Camera.isOpened c = false).
Proof.
  intros He Hst. destruct s as [cfg ae ht cam run th]. simpl in He. subst ae.
  destruct e as [ecfg term str playing phase freq vol wt].
  simpl in Hst. subst str. destruct st as [act cl].
  destruct playing; destruct ht as [h |];
    destruct cam as [[opened released] |]; try destruct opened;
    (eexists; eexists; eexists; split; [reflexivity |]);
    simpl; repeat split; try reflexivity; try discriminate;
    intros x Hx; inversion Hx; subst; reflexivity.
Qed.

Lemma cleanup_releases_everything_witness :
  exists s' e',
    CorporalTheremin.cleanup default_theremin = (s', Ok tt)
    /\ CorporalTheremin.is_running s' = false
    /\ CorporalTheremin.audio_engine s' = Some e'
    /\ AudioEngine.audio_terminated e' = true.
Proof.
  destruct (cleanup_releases_everything default_theremin
              (AudioEngine.init ThereminConfig.default)
              (AudioEngine.mk_stream false false))
    as (s' & e' & st' & Hc & Hr & He & _ & Ht & _).
  - reflexivity.
  - reflexivity.
  - exists s', e'. repeat split; assumption.
Defined.

(** X21.  The parameter state stays bounded by the configuration for the
    whole run of the processing loop: on a well-formed configuration
    shared by the tracker, if the engine starts with a volume in the volume
    range or equal to 0 and a frequency equal to 440 or between [freq_min]
    and the value of the interpolation at the bottom edge of the frame
    ([freq_max] up to rounding), then after any sequence of camera reads
    whose wrists lie inside the image the engine still does. *)
Theorem processing_loop_keeps_parameters
    (reads : list CorporalTheremin.camera_read)
    (s : CorporalTheremin.t) (e : AudioEngine.t) :
  let cfg := CorporalTheremin.config s in
  ready s ->
  CorporalTheremin.audio_engine s = Some e ->
  parameters_ok cfg e ->
  (0 <= ThereminConfig.frame_width cfg)%Z ->
  (0 < ThereminConfig.frame_height cfg)%Z ->
  fst (ThereminConfig.frequency_range cfg)
    <= snd (ThereminConfig.frequency_range cfg) ->
  fst (ThereminConfig.volume_range cfg)
    <= snd (ThereminConfig.volume_range cfg) ->
  Forall read_in_frame reads ->
  exists e',
    CorporalTheremin.audio_engine (CorporalTheremin.processing_loop reads s)
    = Some e'
    /\ parameters_ok cfg e'.
Proof.
  intros cfg. unfold cfg. clear cfg. revert s e.
  induction reads as [| rd rest IH]; intros s e Hready He Hok Hw Hh Hf Hv Hall.
  - exists e. split; assumption.
  - simpl. destruct (CorporalTheremin.is_running s) eqn:Hrun;
      [| exists e; split; assumption].
    inversion Hall as [| rd' rest' Hrd Hrest]; subst.
    destruct rd as [| results].
    + rewrite iteration_read_failed
        by (destruct Hready as ((c & Hc) & _); rewrite Hc; discriminate).
      apply (IH s e); assumption.
    + simpl in Hrd.
      destruct (iteration_in_range_aux s results Hready Hw Hh Hf Hv Hrd)
        as (s' & e' & Hit & He' & Hok' & Hready').
      rewrite Hit.
      destruct (iteration_keeps _ _ _ _ Hit) as (_ & _ & Hcfg).
      rewrite <- Hcfg. apply (IH s' e'); rewrite ?Hcfg; assumption.
Qed.

Lemma processing_loop_keeps_parameters_witness :
  exists e',
    CorporalTheremin.audio_engine
      (CorporalTheremin.processing_loop
         [CorporalTheremin.ReadFrame one_left_hand;
          CorporalTheremin.ReadFailed]
         running_theremin)
    = Some e'
    /\ parameters_ok ThereminConfig.default e'.
Proof.
  apply (processing_loop_keeps_parameters
           [CorporalTheremin.ReadFrame one_left_hand;
            CorporalTheremin.ReadFailed]
           running_theremin
           (AudioEngine.init ThereminConfig.default));
    simpl; try lia; try lra.
  - unfold ready. simpl. repeat split; eexists; try split; reflexivity.
  - reflexivity.
  - unfold parameters_ok. simpl. split; right; reflexivity.
  - constructor; [| constructor; [exact I | constructor]].
    intros lms H. injection H as <-.
    constructor; [simpl; lra | constructor].
Defined.
